(** * Model-lifecycle quality gate: evaluation thresholds and drift monitoring

    A shallow embedding of the decision logic of
    - [src/evaluate_model.py]  ([check_model_thresholds]) and
    - [src/monitor_drift.py]   ([DriftMonitor.monitor_prediction_drift],
                                [DriftMonitor.generate_monitoring_summary]).

    Conventions.
    - A Python [float] that is only stored and compared is a binary64
      value ([PrimFloat.float]); [a >= b] is [b <=? a], [a > b] is [b <? a],
      and every comparison with a NaN is [False], as in Python.
    - The arithmetic of [monitor_prediction_drift] (frequencies, [np.log],
      the chi-square statistic) is read over the real numbers: the
      development reasons about the value the float computation rounds.
    - A raised exception is a [Raise e] result; logging is not modelled. *)

From Stdlib Require Import ZArith List Bool Lia Floats Reals Lra Sorted.
From stdpp Require Import gmap strings sorting.

Set Warnings "-inexact-float".

(** ** Python results and exceptions

    [KeyError] and [ValueError] are the exceptions the modelled code can
    raise; [ValidationError] is the error kind of the specification, which
    no path of the code raises. *)

Inductive exn : Type :=
  | KeyError (key : string)
  | ValueError
  | ValidationError.

Inductive result (A : Type) : Type :=
  | Ok (a : A)
  | Raise (e : exn).

Arguments Ok {A} a.
Arguments Raise {A} e.

Definition bind {A B : Type} (r : result A) (k : A -> result B) : result B :=
  match r with
  | Ok a => k a
  | Raise e => Raise e
  end.

Notation "'let*' x ':=' r 'in' k" := (bind r (fun x => k))
  (at level 10, x name, r at level 100, k at level 200).

(** [d[key]] on a Python dict: [KeyError] when the key is missing. *)
Definition getitem {V : Type} (d : gmap string V) (key : string) : result V :=
  match d !! key with
  | Some v => Ok v
  | None => Raise (KeyError key)
  end.

(** ** Comparisons of Python floats *)

Module PyFloat.

Definition ge (a b : float) : bool := PrimFloat.leb b a.
Definition gt (a b : float) : bool := PrimFloat.ltb b a.
Definition le (a b : float) : bool := PrimFloat.leb a b.
Definition lt (a b : float) : bool := PrimFloat.ltb a b.
Definition eq (a b : float) : bool := PrimFloat.eqb a b.

End PyFloat.

(** The builtin [all] on a list of booleans. *)
Definition py_all (l : list bool) : bool := forallb (fun b => b) l.

(** [x in l] on a list of strings. *)
Definition py_in (x : string) (l : list string) : bool :=
  existsb (String.eqb x) l.

(** ** evaluate_model.py *)

Module Gate.

(** The dict returned by [check_model_thresholds]; the field names are
    its keys. *)
Record checks : Type := mk_checks {
  accuracy_check : bool;
  f1_check : bool;
  accuracy_value : float;
  f1_value : float;
  accuracy_threshold : float;
  f1_threshold : float;
  all_checks_passed : bool
}.

(** [checks["all_checks_passed"] = v] *)
Definition set_all_checks_passed (c : checks) (v : bool) : checks :=
  {| accuracy_check := accuracy_check c;
     f1_check := f1_check c;
     accuracy_value := accuracy_value c;
     f1_value := f1_value c;
     accuracy_threshold := accuracy_threshold c;
     f1_threshold := f1_threshold c;
     all_checks_passed := v |}.

(** Default values of the two threshold parameters. *)
Definition default_accuracy_threshold : float := 0.8%float.
Definition default_f1_threshold : float := 0.8%float.

(** [check_model_thresholds] (lines 173-210).  [evaluation_results] is
    the metrics dict; the entries the gate reads are floats
    (lines 115-118 store them with [float(...)]).  The dict display is
    evaluated entry by entry, so a missing ["accuracy"] is reported
    before a missing ["f1_score"]. *)
Definition check_model_thresholds
    (evaluation_results : gmap string float)
    (accuracy_threshold f1_threshold : float) : result checks :=
  let* a1 := getitem evaluation_results "accuracy" in
  let* f1 := getitem evaluation_results "f1_score" in
  let* a2 := getitem evaluation_results "accuracy" in
  let* f2 := getitem evaluation_results "f1_score" in
  let checks :=
    {| accuracy_check := PyFloat.ge a1 accuracy_threshold;
       f1_check := PyFloat.ge f1 f1_threshold;
       accuracy_value := a2;
       f1_value := f2;
       accuracy_threshold := accuracy_threshold;
       f1_threshold := f1_threshold;
       all_checks_passed := true |} in
  let checks :=
    set_all_checks_passed checks
      (py_all [accuracy_check checks; f1_check checks]) in
  Ok checks.

End Gate.

(** ** monitor_drift.py *)

Module Monitor.

Local Open Scope string_scope.

(** *** The dicts exchanged by the monitor *)

(** The result of [detect_data_drift] (lines 131-139), with the entries
    the summary reads. *)
Record DataDriftResults : Type := mk_data_drift_results {
  dataset_drift_detected : bool;
  dataset_drift_score : float;
  n_features_drifted : Z
}.

(** The result of [run_drift_tests] (lines 180-189), with the entries
    the summary reads. *)
Record TestResults : Type := mk_test_results {
  total_tests : Z;
  passed_tests : Z;
  success_rate : float
}.

(** A pandas Series indexed by class label: the (label, value) pairs in
    index order. *)
Definition series : Type := list (Z * R).

(** The result of [monitor_prediction_drift] (lines 254-261). *)
Record PredictionDrift : Type := mk_prediction_drift {
  kl_divergence : R;
  chi2_statistic : R;
  p_value : R;
  drift_detected : bool;
  current_distribution : series;
  reference_distribution : series
}.

(** The three nested dicts of the summary. *)
Record DataDriftSummary : Type := mk_data_drift_summary {
  dd_detected : bool;
  dd_score : float;
  dd_features_affected : Z
}.

Record TestSummary : Type := mk_test_summary {
  ts_total_tests : Z;
  ts_passed : Z;
  ts_success_rate : float
}.

Record PredictionDriftSummary : Type := mk_prediction_drift_summary {
  pd_detected : bool;
  pd_kl_divergence : R
}.

(** The dict returned by [generate_monitoring_summary] (lines 315-337);
    the key ["prediction_drift"] is present only when a prediction-drift
    result was supplied. *)
Record Summary : Type := mk_summary {
  monitoring_timestamp : string;
  overall_status : string;
  drift_severity : string;
  data_drift : DataDriftSummary;
  test_summary : TestSummary;
  recommendations : list string;
  next_check : string;
  prediction_drift : option PredictionDriftSummary
}.

(** *** pandas and numpy operations used by the monitor *)

(** [col.value_counts(normalize=True)] on a column of integer labels:
    one entry per distinct label, its count divided by the number of
    rows. *)
Definition value_counts_normalize (col : list Z) : series :=
  map (fun v => (v, (INR (count_occ Z.eq_dec col v) / INR (length col))%R))
      (nodup Z.eq_dec col).

(** [s.sort_index()]: the entries by increasing label. *)
Fixpoint insert_by_index (x : Z * R) (s : series) : series :=
  match s with
  | [] => [x]
  | y :: s' =>
      if (fst x <=? fst y)%Z then x :: y :: s'
      else y :: insert_by_index x s'
  end.

Definition sort_index (s : series) : series :=
  fold_right insert_by_index [] s.

(** [s.get(key, default)] *)
Fixpoint get (s : series) (key : Z) (default : R) : R :=
  match s with
  | [] => default
  | (k, v) :: s' => if (k =? key)%Z then v else get s' key default
  end.

(** [s.values] and [s.to_dict()] *)
Definition values (s : series) : list R := map snd s.
Definition to_dict (s : series) : list (Z * R) := s.

(** [range(n)] *)
Definition range (n : nat) : list Z := map Z.of_nat (seq 0 n).

(** The state of numpy's global random generator, which nothing in the
    module seeds: the index it picks at each position of a draw. *)
Definition rng : Type := nat -> nat.

(** [np.random.choice(choices, size=size)] *)
Definition np_random_choice (g : rng) (choices : list Z) (size : nat)
    : list Z :=
  map (fun i => nth (g i mod length choices) choices 0%Z) (seq 0 size).

(** The part of a [DriftMonitor] that [monitor_prediction_drift] reads:
    the rows of [self.reference_data]. *)
Record DriftMonitor : Type := mk_drift_monitor {
  reference_data : list (list float)
}.

Section PredictionDrift.

(** [scipy.stats.chi2.sf]: the survival function of the chi-square
    distribution, by statistic and degrees of freedom. *)
Variable chi2_sf : R -> Z -> R.

(** numpy's broadcasting of two one-dimensional arrays: arrays of equal
    length are kept, an array of length one is stretched to the length of
    the other (also to length zero), and any other pair of lengths is a
    [ValueError]. *)
Definition broadcast (a b : list R) : result (list R * list R) :=
  if (length a =? length b)%nat then Ok (a, b)
  else
    match a, b with
    | [x], _ => Ok (repeat x (length b), b)
    | _, [y] => Ok (a, repeat y (length a))
    | _, _ => Raise ValueError
    end.

(** [abs(s_obs - s_exp) / min(s_obs, s_exp) > rtol], the test scipy makes
    on the sums of the two arrays.  With a minimum of zero the float
    quotient is infinite for a positive difference and NaN for a zero
    difference, and no comparison with NaN holds. *)
Definition relative_diff_exceeds (s_obs s_exp rtol : R) : bool :=
  let diff := Rabs (s_obs - s_exp) in
  let m := Rmin s_obs s_exp in
  if Req_dec_T m 0%R then (if Rlt_dec 0%R diff then true else false)
  else (if Rlt_dec rtol (diff / m)%R then true else false).

(** [scipy.stats.chisquare(f_obs, f_exp)]: the two arrays are broadcast
    against each other; sums that disagree by more than the relative
    tolerance [1e-8] are a [ValueError]; the result is Pearson's statistic
    [sum((f_obs - f_exp)**2 / f_exp)] and its p-value with one degree of
    freedom less than the number of terms.  On empty arrays the statistic
    is the empty sum and the degrees of freedom are -1, where scipy's
    survival function is NaN; the p-value is then whatever [chi2_sf]
    gives at -1, and no property below depends on it. *)
Definition chisquare (f_obs f_exp : list R) : result (R * R) :=
  let* arrays := broadcast f_obs f_exp in
  let f_obs := fst arrays in
  let f_exp := snd arrays in
  if relative_diff_exceeds (fold_right Rplus 0%R f_obs)
       (fold_right Rplus 0%R f_exp) 1e-8%R
  then Raise ValueError
  else
    let terms :=
      map (fun oe => ((fst oe - snd oe) ^ 2 / snd oe)%R)
          (combine f_obs f_exp) in
    let stat := fold_right Rplus 0%R terms in
    Ok (stat, chi2_sf stat (Z.of_nat (length terms) - 1)).

(** The body of the loop of lines 244-247. *)
Definition kl_step (reference_dist current_dist : series)
    (kl_divergence : R) (i : Z) : R :=
  let p := get reference_dist i 1e-10%R in
  let q := get current_dist i 1e-10%R in
  (kl_divergence + p * ln (p / q))%R.

(** Lines 243-247. *)
Definition kl_loop (reference_dist current_dist : series) : R :=
  fold_left (kl_step reference_dist current_dist) (range 3) 0%R.

(** [monitor_prediction_drift] (lines 207-267).  The two arguments are
    the ["prediction"] columns; [g] is the state of the random
    generator at the call. *)
Definition monitor_prediction_drift
    (self : DriftMonitor) (g : rng)
    (current_predictions : list Z)
    (reference_predictions : option (list Z)) : result PredictionDrift :=
  let reference_predictions :=
    match reference_predictions with
    | None =>
        let n_samples := length (reference_data self) in
        np_random_choice g [0; 1; 2]%Z n_samples
    | Some r => r
    end in
  let current_dist :=
    sort_index (value_counts_normalize current_predictions) in
  let reference_dist :=
    sort_index (value_counts_normalize reference_predictions) in
  let kl_divergence := kl_loop reference_dist current_dist in
  let* chi2 := chisquare (values current_dist) (values reference_dist) in
  let chi2_stat := fst chi2 in
  let p_value := snd chi2 in
  Ok {| kl_divergence := kl_divergence;
        chi2_statistic := chi2_stat;
        p_value := p_value;
        drift_detected :=
          if Rlt_dec p_value 0.05%R then true else false;
        current_distribution := to_dict current_dist;
        reference_distribution := to_dict reference_dist |}.

End PredictionDrift.

(** The four recommendation texts (lines 299-312). *)
Definition rec_retrain : string :=
  "Consider retraining the model with recent data".
Definition rec_investigate : string :=
  "Multiple features showing drift - investigate data pipeline".
Definition rec_attention : string :=
  "Drift tests failing - immediate attention required".
Definition rec_monitor : string :=
  "Prediction distribution shifted - monitor model performance".

(** [l.append(x)] when [c] holds. *)
Definition append_if (c : bool) (l : list string) (x : string) : list string :=
  if c then l ++ [x] else l.

(** Truth value of the optional [prediction_drift] argument: [None] is
    false, a result dict (never empty) is true. *)
Definition supplied (prediction_drift : option PredictionDrift) : bool :=
  match prediction_drift with
  | Some _ => true
  | None => false
  end.

(** [prediction_drift and prediction_drift["drift_detected"]] *)
Definition supplied_and_detected
    (prediction_drift : option PredictionDrift) : bool :=
  match prediction_drift with
  | Some pd => drift_detected pd
  | None => false
  end.

(** [generate_monitoring_summary] (lines 269-339).  [now] is the value
    of [datetime.now().isoformat()] at the call. *)
Definition generate_monitoring_summary
    (now : string)
    (data_drift_results : DataDriftResults)
    (test_results : TestResults)
    (prediction_drift : option PredictionDrift) : Summary :=
  let drift_severity := "none" in
  let drift_severity :=
    if dataset_drift_detected data_drift_results then
      if PyFloat.gt (dataset_drift_score data_drift_results) 0.7 then "high"
      else if PyFloat.gt (dataset_drift_score data_drift_results) 0.5
      then "medium"
      else "low"
    else drift_severity in
  let recommendations := [] in
  let recommendations :=
    append_if (py_in drift_severity ["medium"; "high"])
      recommendations rec_retrain in
  let recommendations :=
    append_if (2 <? n_features_drifted data_drift_results)%Z
      recommendations rec_investigate in
  let recommendations :=
    append_if (PyFloat.lt (success_rate test_results) 0.8)
      recommendations rec_attention in
  let recommendations :=
    append_if (supplied_and_detected prediction_drift)
      recommendations rec_monitor in
  {| monitoring_timestamp := now;
     overall_status :=
       if py_in drift_severity ["medium"; "high"] then "alert" else "ok";
     drift_severity := drift_severity;
     data_drift :=
       {| dd_detected := dataset_drift_detected data_drift_results;
          dd_score := dataset_drift_score data_drift_results;
          dd_features_affected := n_features_drifted data_drift_results |};
     test_summary :=
       {| ts_total_tests := total_tests test_results;
          ts_passed := passed_tests test_results;
          ts_success_rate := success_rate test_results |};
     recommendations := recommendations;
     next_check := "Monitor daily for the next week";
     prediction_drift :=
       match prediction_drift with
       | Some pd =>
           Some {| pd_detected := drift_detected pd;
                   pd_kl_divergence := kl_divergence pd |}
       | None => None
       end |}.

End Monitor.

(** ** Notions used to state the properties of the prediction monitor

    These follow the wording of the specification (probabilities with a
    floor, the Kullback-Leibler sum, the goodness-of-fit statistic on
    counts); the properties below compare the code with them. *)

Module Notions.

Import Monitor.

(** The distribution the monitor builds from a prediction column
    (lines 233-240). *)
Definition distribution (col : list Z) : series :=
  sort_index (value_counts_normalize col).

(** The reference column the monitor works with (lines 225-230). *)
Definition effective_reference (self : DriftMonitor) (g : rng)
    (reference_predictions : option (list Z)) : list Z :=
  match reference_predictions with
  | None => np_random_choice g [0; 1; 2]%Z (length (reference_data self))
  | Some r => r
  end.

(** The relative frequency of a label in a column. *)
Definition freq (col : list Z) (v : Z) : R :=
  (INR (count_occ Z.eq_dec col v) / INR (length col))%R.

(** The probability of class [i] in a column: its relative frequency,
    and the floor [1e-10] for a class that does not occur. *)
Definition class_prob (col : list Z) (i : Z) : R :=
  if (count_occ Z.eq_dec col i =? 0)%nat then 1e-10%R
  else (INR (count_occ Z.eq_dec col i) / INR (length col))%R.

(** The Kullback-Leibler sum [sum p * log (p / q)] over the classes 0, 1
    and 2, with [p] from the reference column and [q] from the current
    one. *)
Definition kl_sum (reference current : list Z) : R :=
  let term i :=
    (class_prob reference i
     * ln (class_prob reference i / class_prob current i))%R in
  (0 + term 0%Z + term 1%Z + term 2%Z)%R.

(** The labels a column observes, by increasing label. *)
Definition observed_labels (col : list Z) : list Z :=
  map fst (distribution col).

(** Pearson's statistic of observed against expected values. *)
Definition pearson (observed expected : list R) : R :=
  fold_right Rplus 0%R
    (map (fun oe => ((fst oe - snd oe) ^ 2 / snd oe)%R)
         (combine observed expected)).

(** The goodness-of-fit statistic of the observed current counts against
    the expected counts derived from the reference distribution: the
    count of each observed label against the number of current
    predictions times the reference probability. *)
Definition observed_counts (current : list Z) : list R :=
  map (fun v => INR (count_occ Z.eq_dec current v)) (observed_labels current).

Definition expected_counts (current reference : list Z) : list R :=
  map (fun r => (INR (length current) * r)%R) (values (distribution reference)).

Definition goodness_of_fit_on_counts (current reference : list Z) : R :=
  pearson (observed_counts current) (expected_counts current reference).

(** The classes the chi-square test pairs: position by position, a label
    of the current distribution with a label of the reference one. *)
Definition paired_labels (current reference : list Z) : list (Z * Z) :=
  combine (observed_labels current) (observed_labels reference).

(** The numbers of distinct labels of two prediction inputs are
    degenerate: one input is empty and the other observes a single
    label. *)
Definition degenerate_lengths (n m : nat) : Prop :=
  (n = 0%nat /\ m = 1%nat) \/ (n = 1%nat /\ m = 0%nat).

(** A summary with its timestamp blanked. *)
Definition without_timestamp (s : Summary) : Summary :=
  {| monitoring_timestamp := "";
     overall_status := overall_status s;
     drift_severity := drift_severity s;
     data_drift := data_drift s;
     test_summary := test_summary s;
     recommendations := recommendations s;
     next_check := next_check s;
     prediction_drift := prediction_drift s |}.

End Notions.

(** ** monitor_drift.py: drift detection, the test suite and the pipeline *)

(** Exceptions of the code below, beyond those of [exn]. *)
Inductive exception : Type :=
  | Builtin (e : exn)
  | ZeroDivisionError.

Inductive outcome (A : Type) : Type :=
  | Return (a : A)
  | Throw (e : exception).

Arguments Return {A} a.
Arguments Throw {A} e.

Module Detect.

Local Open Scope string_scope.

(** The values of Evidently's report dict that the method meets: the
    entries of a metric result are booleans and numbers (an integer is
    represented by the float of the same value); the entries of a column
    of the drift table may also be strings. *)
Inductive scalar : Type :=
  | SBool (b : bool)
  | SNum (x : float).

Inductive value : Type :=
  | VScalar (v : scalar)
  | VStr (s : string).

(** The truth value of an entry in a condition. *)
Definition scalar_truth (v : scalar) : bool :=
  match v with
  | SBool b => b
  | SNum x => negb (PyFloat.eq x 0)
  end.

Definition truth (v : value) : bool :=
  match v with
  | VScalar v => scalar_truth v
  | VStr s => negb (String.eqb s "")
  end.

(** The number an entry stands for in a comparison ([True] is 1). *)
Definition number (v : scalar) : float :=
  match v with
  | SBool b => if b then 1%float else 0%float
  | SNum x => x
  end.

(** The dict stored for one feature (lines 123-128). *)
Record FeatureDrift : Type := mk_feature_drift {
  drift_detected : value;
  drift_score : value;
  stattest_name : value;
  threshold : value
}.

(** The parts of [data_drift_report.as_dict()] that the method reads:
    [report_dict["metrics"][0]["result"]] and the items of
    [report_dict["metrics"][1]["result"]["drift_by_columns"]], in
    iteration order. *)
Record DriftReport : Type := mk_drift_report {
  dataset_result : gmap string scalar;
  drift_by_columns : list (string * gmap string value)
}.

(** The dict returned by [detect_data_drift] (lines 131-139). *)
Record DriftResults : Type := mk_drift_results {
  dataset_drift_detected : scalar;
  dataset_drift_score : scalar;
  feature_drift : gmap string FeatureDrift;
  n_features_drifted : Z;
  timestamp : string
}.

(** The dict display of lines 123-128: the four entries of [details],
    read in this order. *)
Definition read_details (details : gmap string value) : result FeatureDrift :=
  let* detected := getitem details "drift_detected" in
  let* score := getitem details "drift_score" in
  let* stattest := getitem details "stattest_name" in
  let* thr := getitem details "threshold" in
  Ok {| drift_detected := detected;
        drift_score := score;
        stattest_name := stattest;
        threshold := thr |}.

(** The loop of lines 121-128 over the remaining items of the table. *)
Fixpoint feature_drift_loop (items : list (string * gmap string value))
    (feature_drift : gmap string FeatureDrift)
    : result (gmap string FeatureDrift) :=
  match items with
  | [] => Ok feature_drift
  | (column, details) :: items =>
      if negb (String.eqb column "species") then
        let* entry := read_details details in
        feature_drift_loop items (<[column := entry]> feature_drift)
      else feature_drift_loop items feature_drift
  end.

(** [sum(1 for f in d.values() if f["drift_detected"])] *)
Definition count_drifted (d : gmap string FeatureDrift) : Z :=
  fold_right Z.add 0%Z
    (map (fun _ => 1%Z)
         (filter (fun f => truth (drift_detected f) = true)
                 (map snd (map_to_list d)))).

(** [detect_data_drift] from the report dict on (lines 113-152); [now] is
    the value of [datetime.now().isoformat()] at line 138.  Running the
    report and saving it as HTML are not modelled. *)
Definition detect_data_drift (report : DriftReport) (now : string)
    : result DriftResults :=
  let* drift_detected := getitem (dataset_result report) "dataset_drift" in
  let* drift_score := getitem (dataset_result report) "drift_score" in
  let feature_drift := ∅ in
  let drift_table := drift_by_columns report in
  let* feature_drift := feature_drift_loop drift_table feature_drift in
  Ok {| dataset_drift_detected := drift_detected;
        dataset_drift_score := drift_score;
        feature_drift := feature_drift;
        n_features_drifted := count_drifted feature_drift;
        timestamp := now |}.

(** The entries of the result as [generate_monitoring_summary] uses
    them: the drift flag in a condition, the score in comparisons. *)
Definition summary_input (r : DriftResults) : Monitor.DataDriftResults :=
  Monitor.mk_data_drift_results
    (scalar_truth (dataset_drift_detected r))
    (number (dataset_drift_score r))
    (n_features_drifted r).

End Detect.

Module Suite.

Local Open Scope string_scope.

(** The parts of [drift_tests.as_dict()] that [run_drift_tests] reads:
    the three counters of ["summary"] and, for each entry of ["tests"],
    its name, status and description. *)
Record SuiteSummary : Type := mk_suite_summary {
  s_total_tests : Z;
  s_success_tests : Z;
  s_failed_tests : Z
}.

Record TestEntry : Type := mk_test_entry {
  name : string;
  status : string;
  description : string
}.

Record SuiteResults : Type := mk_suite_results {
  summary : SuiteSummary;
  tests : list TestEntry
}.

(** The dict returned by [run_drift_tests] (lines 180-199). *)
Record TestsSummary : Type := mk_tests_summary {
  total_tests : Z;
  passed_tests : Z;
  failed_tests : Z;
  success_rate : float;
  test_details : list TestEntry
}.

Section RunDriftTests.

(** [a / b] on Python integers with [b] not zero: the float nearest to
    the quotient. *)
Variable int_truediv : Z -> Z -> float.

(** [a / b] on Python integers. *)
Definition truediv (a b : Z) : outcome float :=
  if (b =? 0)%Z then Throw ZeroDivisionError else Return (int_truediv a b).

(** [run_drift_tests] from the suite dict on (lines 176-205). *)
Definition run_drift_tests (test_results : SuiteResults)
    : outcome TestsSummary :=
  match truediv (s_success_tests (summary test_results))
                (s_total_tests (summary test_results)) with
  | Throw e => Throw e
  | Return rate =>
      let tests_summary :=
        {| total_tests := s_total_tests (summary test_results);
           passed_tests := s_success_tests (summary test_results);
           failed_tests := s_failed_tests (summary test_results);
           success_rate := rate;
           test_details := [] |} in
      let test_details :=
        fold_left
          (fun details test =>
             (details ++ [{| name := name test;
                             status := status test;
                             description := description test |}])%list)
          (tests test_results) (test_details tests_summary) in
      Return {| total_tests := total_tests tests_summary;
                passed_tests := passed_tests tests_summary;
                failed_tests := failed_tests tests_summary;
                success_rate := success_rate tests_summary;
                test_details := test_details |}
  end.

(** The entries of the result that [generate_monitoring_summary] reads. *)
Definition summary_input (r : TestsSummary) : Monitor.TestResults :=
  Monitor.mk_test_results (total_tests r) (passed_tests r) (success_rate r).

(** [main] of monitor_drift.py from the two Evidently dicts on
    (lines 409-418, 442): drift detection, the test suite, then the
    summary, which is called without a prediction-drift result.  [now1]
    and [now2] are the clock readings of the detection and of the
    summary.  Loading the data and writing the results file are not
    modelled. *)
Definition main (report : Detect.DriftReport) (suite : SuiteResults)
    (now1 now2 : string) : outcome Monitor.Summary :=
  match Detect.detect_data_drift report now1 with
  | Raise e => Throw (Builtin e)
  | Ok data_drift_results =>
      match run_drift_tests suite with
      | Throw e => Throw e
      | Return test_results =>
          Return (Monitor.generate_monitoring_summary now2
                    (Detect.summary_input data_drift_results)
                    (summary_input test_results) None)
      end
  end.

End RunDriftTests.

End Suite.

(** ** evaluate_model.py and the pipeline component: the deployment decision *)

Module Deploy.

Local Open Scope string_scope.

(** The dict returned by [main] of evaluate_model.py (lines 313-318),
    with the two entries derived from the gate. *)
Record FinalResults : Type := mk_final_results {
  deploy_model : bool;
  threshold_checks : Gate.checks
}.

(** [main] of evaluate_model.py from the metrics dict on (lines 304-322).
    Loading the artifacts, computing the metrics, cross-validation and
    saving the report are not modelled. *)
Definition main (evaluation_results : gmap string float)
    (accuracy_threshold f1_threshold : float) : result FinalResults :=
  let* threshold_checks :=
    Gate.check_model_thresholds evaluation_results
      accuracy_threshold f1_threshold in
  Ok {| deploy_model := Gate.all_checks_passed threshold_checks;
        threshold_checks := threshold_checks |}.

(** The deployment decision of the pipeline component [evaluate_model]
    (pipelines/iris_pipeline.py lines 198-199 and
    pipelines/iris_pipeline_fixed.py lines 114-115), and the metric logged
    for it (line 201). *)
Definition deploy_decision (accuracy f1 accuracy_threshold f1_threshold : float)
    : string :=
  let deploy :=
    PyFloat.ge accuracy accuracy_threshold && PyFloat.ge f1 f1_threshold in
  if deploy then "deploy" else "no-deploy".

Definition deployment_decision_metric
    (accuracy f1 accuracy_threshold f1_threshold : float) : Z :=
  let deploy :=
    PyFloat.ge accuracy accuracy_threshold && PyFloat.ge f1 f1_threshold in
  if deploy then 1%Z else 0%Z.

(** [register_model] of pipelines/iris_pipeline_fixed.py: the status and
    the deployed flag of the registry entry (lines 272-275). *)
Definition registry_status (deploy_decision : string) : string :=
  if String.eqb deploy_decision "deploy" then "production-ready"
  else "evaluation-only".

Definition registry_deployed (deploy_decision : string) : bool :=
  String.eqb deploy_decision "deploy".

End Deploy.

(** ** Notions used to state further properties *)

Module Scale.

Local Open Scope string_scope.

(** The severity levels in increasing order. *)
Definition severity_rank (severity : string) : nat :=
  if String.eqb severity "low" then 1
  else if String.eqb severity "medium" then 2
  else if String.eqb severity "high" then 3
  else 0.

(** The four recommendations, in the order the summary emits them. *)
Definition all_recommendations : list string :=
  [Monitor.rec_retrain; Monitor.rec_investigate;
   Monitor.rec_attention; Monitor.rec_monitor].

(** A column of the drift table is flagged: its ["drift_detected"]
    entry is there and true. *)
Definition flagged (details : gmap string Detect.value) : bool :=
  match details !! "drift_detected" with
  | Some v => Detect.truth v
  | None => false
  end.

(** The feature columns of a drift table: the items other than
    "species". *)
Definition feature_columns (items : list (string * gmap string Detect.value))
    : list (string * gmap string Detect.value) :=
  List.filter (fun item => negb (String.eqb (fst item) "species")) items.

(** Python's [x != x], which holds of a NaN only. *)
Definition is_nan (x : float) : bool := negb (PyFloat.eq x x).

(** A series is the probability distribution of a column: its labels are
    the labels the column observes, in strictly increasing order; each
    value is the relative frequency of its label, positive and at most 1;
    and the values of a non-empty column add up to 1. *)
Definition distribution_of (col : list Z) (s : Monitor.series) : Prop :=
  Sorted Z.lt (map fst s) /\
  (forall k : Z, In k (map fst s) <-> In k col) /\
  (forall (k : Z) (v : R),
      In (k, v) s -> v = Notions.freq col k /\ (0 < v <= 1)%R) /\
  (col <> [] -> fold_right Rplus 0%R (map snd s) = 1%R).

(** A reference column in which the classes 0, 1 and 2 occur equally
    often and nothing else occurs. *)
Definition balanced (reference : list Z) : Prop :=
  exists n : nat,
    (0 < n)%nat /\
    count_occ Z.eq_dec reference 0%Z = n /\
    count_occ Z.eq_dec reference 1%Z = n /\
    count_occ Z.eq_dec reference 2%Z = n /\
    length reference = (3 * n)%nat /\
    (forall z : Z, In z reference -> z = 0%Z \/ z = 1%Z \/ z = 2%Z).

End Scale.

(** * Properties *)

(** ** Order facts on binary64 values

    [PrimFloat.ltb], [PrimFloat.leb] and [PrimFloat.eqb] are specified by
    [SFcompare] on the decoded value; the facts below are the ones the
    threshold logic relies on. *)

Section FloatOrder.

Lemma SFcompare_antisym (a b : spec_float) (c : comparison) :
  SFcompare a b = Some c -> SFcompare b a = Some (CompOpp c).
Proof.
  destruct a as [sa|sa| |sa ma ea], b as [sb|sb| |sb mb eb]; simpl;
    try discriminate;
    try (destruct sa; try destruct sb; intros [= <-]; reflexivity).
  rewrite (Z.compare_antisym ea eb).
  change (Pos.compare_cont Eq mb ma) with (Pos.compare mb ma).
  change (Pos.compare_cont Eq ma mb) with (Pos.compare ma mb).
  rewrite (Pos.compare_antisym ma mb).
  destruct sa, sb; intros [= <-]; try reflexivity;
    destruct (ea ?= eb)%Z; simpl; try reflexivity;
    destruct (ma ?= mb)%positive; reflexivity.
Qed.

(** [a <= b] and [b < c] give [a < c], on decoded values. *)
Lemma SFcompare_le_lt_trans (a b c : spec_float) :
  SFleb a b = true -> SFltb b c = true -> SFltb a c = true.
Proof.
  unfold SFleb, SFltb.
  destruct a as [sa|sa| |sa ma ea], b as [sb|sb| |sb mb eb],
    c as [sc|sc| |sc mc ec]; simpl; try discriminate;
    try (destruct sa; try destruct sb; try destruct sc;
         try discriminate; try reflexivity; fail).
  change (Pos.compare_cont Eq ma mb) with (Pos.compare ma mb).
  change (Pos.compare_cont Eq mb mc) with (Pos.compare mb mc).
  change (Pos.compare_cont Eq ma mc) with (Pos.compare ma mc).
  destruct sa, sb, sc; try discriminate; try reflexivity;
    destruct (Z.compare_spec ea eb), (Z.compare_spec eb ec),
      (Z.compare_spec ea ec); try discriminate; try reflexivity; try lia;
    destruct (Pos.compare_spec ma mb), (Pos.compare_spec mb mc),
      (Pos.compare_spec ma mc); simpl; try discriminate; try reflexivity;
      try lia.
Qed.

Lemma float_le_not_gt (x y : float) :
  PyFloat.le x y = true -> PyFloat.gt x y = false.
Proof.
  unfold PyFloat.le, PyFloat.gt.
  rewrite leb_spec, ltb_spec. unfold SFleb, SFltb.
  destruct (SFcompare (Prim2SF x) (Prim2SF y)) as [c|] eqn:E;
    [|discriminate].
  rewrite (SFcompare_antisym _ _ _ E).
  destruct c; simpl; intros; try reflexivity; discriminate.
Qed.

Lemma float_le_lt_not_gt (x a b : float) :
  PyFloat.le x a = true -> PyFloat.lt a b = true -> PyFloat.gt x b = false.
Proof.
  unfold PyFloat.le, PyFloat.lt, PyFloat.gt.
  rewrite leb_spec, !ltb_spec. intros Hxa Hab.
  pose proof (SFcompare_le_lt_trans _ _ _ Hxa Hab) as Hxb.
  unfold SFltb in *.
  destruct (SFcompare (Prim2SF x) (Prim2SF b)) as [c|] eqn:E;
    [|discriminate].
  rewrite (SFcompare_antisym _ _ _ E).
  destruct c; simpl; try reflexivity; discriminate.
Qed.

Lemma float_eq_ge (x y : float) :
  PyFloat.eq x y = true -> PyFloat.ge x y = true.
Proof.
  unfold PyFloat.eq, PyFloat.ge.
  rewrite FloatAxioms.eqb_spec, leb_spec. unfold SFeqb, SFleb.
  destruct (SFcompare (Prim2SF x) (Prim2SF y)) as [c|] eqn:E;
    [|discriminate].
  rewrite (SFcompare_antisym _ _ _ E).
  destruct c; simpl; try reflexivity; discriminate.
Qed.

End FloatOrder.

(** ** The evaluation gate *)

Section GateFacts.

Import Gate.

Lemma getitem_Some {V : Type} (d : gmap string V) (k : string) (v : V) :
  d !! k = Some v -> getitem d k = Ok v.
Proof. unfold getitem. intros ->. reflexivity. Qed.

Lemma getitem_None {V : Type} (d : gmap string V) (k : string) :
  d !! k = None -> getitem d k = Raise (KeyError k).
Proof. unfold getitem. intros ->. reflexivity. Qed.

(** The gate on a dict that has both entries, written out. *)
Lemma check_model_thresholds_ok (m : gmap string float)
    (acc f1 ta tf : float) :
  m !! "accuracy" = Some acc ->
  m !! "f1_score" = Some f1 ->
  check_model_thresholds m ta tf =
    Ok {| accuracy_check := PyFloat.ge acc ta;
          f1_check := PyFloat.ge f1 tf;
          accuracy_value := acc;
          f1_value := f1;
          accuracy_threshold := ta;
          f1_threshold := tf;
          all_checks_passed := PyFloat.ge acc ta && PyFloat.ge f1 tf |}.
Proof.
  intros Ha Hf. unfold check_model_thresholds.
  rewrite (getitem_Some _ _ _ Ha), (getitem_Some _ _ _ Hf). simpl.
  unfold set_all_checks_passed, py_all. simpl.
  rewrite andb_true_r. reflexivity.
Qed.

(** The gate fails exactly on a dict that lacks one of the entries. *)
Lemma check_model_thresholds_raise (m : gmap string float)
    (ta tf : float) (e : exn) :
  check_model_thresholds m ta tf = Raise e ->
  (e = KeyError "accuracy" /\ m !! "accuracy" = None) \/
  (e = KeyError "f1_score" /\ m !! "f1_score" = None).
Proof.
  unfold check_model_thresholds, getitem.
  destruct (m !! "accuracy") as [a|] eqn:Ha; simpl.
  - destruct (m !! "f1_score") as [f|] eqn:Hf; simpl.
    + discriminate.
    + intros [= <-]. right. split; reflexivity.
  - intros [= <-]. left. split; reflexivity.
Qed.

End GateFacts.

(** C1.  On every metrics dict [m] holding an accuracy [acc] and an F1
    score [f1], and for all thresholds [ta] and [tf], the gate returns a
    result whose [all_checks_passed] is the conjunction of [acc >= ta]
    and [f1 >= tf]; the two individual checks are these comparisons, so a
    metric equal to its threshold passes its check. *)
Theorem C1_all_checks_passed_is_conjunction
    (m : gmap string float) (acc f1 ta tf : float) :
  m !! "accuracy" = Some acc ->
  m !! "f1_score" = Some f1 ->
  exists r,
    Gate.check_model_thresholds m ta tf = Ok r /\
    Gate.all_checks_passed r = PyFloat.ge acc ta && PyFloat.ge f1 tf /\
    Gate.accuracy_check r = PyFloat.ge acc ta /\
    Gate.f1_check r = PyFloat.ge f1 tf /\
    (PyFloat.eq acc ta = true -> Gate.accuracy_check r = true) /\
    (PyFloat.eq f1 tf = true -> Gate.f1_check r = true).
Proof.
  intros Ha Hf. eexists. split.
  - apply (check_model_thresholds_ok m acc f1 ta tf Ha Hf).
  - simpl. repeat split; auto using float_eq_ge.
Qed.

(** The gate scenario of the specification: accuracy 0.92 and F1 0.90
    against thresholds 0.85 pass. *)
Lemma C1_witness :
  exists r,
    Gate.check_model_thresholds
      (<["accuracy" := 0.92%float]> (<["f1_score" := 0.90%float]> ∅))
      0.85%float 0.85%float = Ok r /\
    Gate.all_checks_passed r = true.
Proof.
  destruct (C1_all_checks_passed_is_conjunction
              (<["accuracy" := 0.92%float]> (<["f1_score" := 0.90%float]> ∅))
              0.92%float 0.90%float 0.85%float 0.85%float)
    as (r & Hr & Hall & _); [reflexivity | reflexivity |].
  exists r. split; [exact Hr | rewrite Hall; reflexivity].
Defined.

(** C7, as stated, fails: an accuracy of 1.5 lies outside [0,1], and the
    gate returns a result instead of raising [ValidationError]. *)
Lemma C7_out_of_range_metric_is_accepted :
  PyFloat.gt 1.5%float 1%float = true /\
  Gate.check_model_thresholds
    (<["accuracy" := 1.5%float]> (<["f1_score" := 0.9%float]> ∅))
    0.8%float 0.8%float =
  Ok {| Gate.accuracy_check := true;
        Gate.f1_check := true;
        Gate.accuracy_value := 1.5%float;
        Gate.f1_value := 0.9%float;
        Gate.accuracy_threshold := 0.8%float;
        Gate.f1_threshold := 0.8%float;
        Gate.all_checks_passed := true |} /\
  Gate.check_model_thresholds
    (<["accuracy" := 1.5%float]> (<["f1_score" := 0.9%float]> ∅))
    0.8%float 0.8%float <> Raise ValidationError.
Proof.
  split; [reflexivity|]. split; [reflexivity|]. discriminate.
Qed.

(** C7, amended.  The gate validates no range and never raises
    [ValidationError]: on every metrics dict that holds the two entries
    it reads it returns a result, whatever their values; its only failure
    is the [KeyError] of a missing ["accuracy"] or ["f1_score"] entry. *)
Theorem C7_gate_failure_modes (m : gmap string float) (ta tf : float) :
  Gate.check_model_thresholds m ta tf <> Raise ValidationError /\
  (forall acc f1,
      m !! "accuracy" = Some acc -> m !! "f1_score" = Some f1 ->
      exists r, Gate.check_model_thresholds m ta tf = Ok r /\
                Gate.accuracy_value r = acc /\ Gate.f1_value r = f1) /\
  (forall e,
      Gate.check_model_thresholds m ta tf = Raise e ->
      (e = KeyError "accuracy" /\ m !! "accuracy" = None) \/
      (e = KeyError "f1_score" /\ m !! "f1_score" = None)).
Proof.
  split; [|split].
  - intros H. apply check_model_thresholds_raise in H.
    destruct H as [[H _]|[H _]]; discriminate.
  - intros acc f1 Ha Hf. eexists. split.
    + apply (check_model_thresholds_ok m acc f1 ta tf Ha Hf).
    + split; reflexivity.
  - intros e. apply check_model_thresholds_raise.
Qed.

(** The amended C7 at a dict whose accuracy is 1.5, and at one without an
    F1 score. *)
Lemma C7_witness :
  (exists r,
      Gate.check_model_thresholds
        (<["accuracy" := 1.5%float]> (<["f1_score" := 0.9%float]> ∅))
        0.8%float 0.8%float = Ok r /\
      Gate.accuracy_value r = 1.5%float /\ Gate.f1_value r = 0.9%float) /\
  ((KeyError "f1_score" = KeyError "accuracy" /\
    (<["accuracy" := 0.9%float]> ∅ : gmap string float) !! "accuracy" = None) \/
   (KeyError "f1_score" = KeyError "f1_score" /\
    (<["accuracy" := 0.9%float]> ∅ : gmap string float) !! "f1_score" = None)).
Proof.
  split.
  - apply (C7_gate_failure_modes
             (<["accuracy" := 1.5%float]> (<["f1_score" := 0.9%float]> ∅))
             0.8%float 0.8%float); reflexivity.
  - apply (C7_gate_failure_modes (<["accuracy" := 0.9%float]> ∅)
             0.8%float 0.8%float). reflexivity.
Defined.

(** ** The monitoring summary *)

Section SummaryFacts.

Import Monitor.
Local Open Scope string_scope.

Variables (now : string) (d : DataDriftResults) (t : TestResults)
          (p : option PredictionDrift).

(** The severity computed at lines 287-294. *)
Lemma drift_severity_eq :
  drift_severity (generate_monitoring_summary now d t p) =
    if dataset_drift_detected d then
      if PyFloat.gt (dataset_drift_score d) 0.7 then "high"
      else if PyFloat.gt (dataset_drift_score d) 0.5 then "medium"
      else "low"
    else "none".
Proof. reflexivity. Qed.

(** The status computed at line 317. *)
Lemma overall_status_eq :
  overall_status (generate_monitoring_summary now d t p) =
    if py_in (drift_severity (generate_monitoring_summary now d t p))
             ["medium"; "high"]
    then "alert" else "ok".
Proof. reflexivity. Qed.

(** The recommendations built at lines 297-312. *)
Lemma recommendations_eq :
  recommendations (generate_monitoring_summary now d t p) =
    append_if (supplied_and_detected p)
      (append_if (PyFloat.lt (success_rate t) 0.8)
         (append_if (2 <? n_features_drifted d)%Z
            (append_if
               (py_in (drift_severity (generate_monitoring_summary now d t p))
                      ["medium"; "high"])
               [] rec_retrain)
            rec_investigate)
         rec_attention)
      rec_monitor.
Proof. reflexivity. Qed.

(** The severity is one of the four levels. *)
Lemma drift_severity_cases :
  let s := drift_severity (generate_monitoring_summary now d t p) in
  s = "none" \/ s = "low" \/ s = "medium" \/ s = "high".
Proof.
  intros s. subst s. rewrite drift_severity_eq.
  destruct (dataset_drift_detected d); auto.
  destruct (PyFloat.gt (dataset_drift_score d) 0.7); auto.
  destruct (PyFloat.gt (dataset_drift_score d) 0.5); auto.
Qed.

End SummaryFacts.

Lemma append_if_app (c : bool) (l : list string) (x : string) :
  Monitor.append_if c l x = l ++ (if c then [x] else []).
Proof. destruct c; simpl; [reflexivity | now rewrite app_nil_r]. Qed.

(** C2.  For every monitoring input the severity is "none" when no
    dataset drift was detected, whatever the score; with drift detected it
    is "high" when the score is above 0.7, "medium" when the score is
    above 0.5 and at most 0.7, and "low" when the score is at most 0.5. *)
Theorem C2_drift_severity
    (now : string) (d : Monitor.DataDriftResults) (t : Monitor.TestResults)
    (p : option Monitor.PredictionDrift) :
  let severity :=
    Monitor.drift_severity (Monitor.generate_monitoring_summary now d t p) in
  let score := Monitor.dataset_drift_score d in
  (Monitor.dataset_drift_detected d = false -> severity = "none"%string) /\
  (Monitor.dataset_drift_detected d = true ->
   PyFloat.gt score 0.7 = true -> severity = "high"%string) /\
  (Monitor.dataset_drift_detected d = true ->
   PyFloat.gt score 0.5 = true -> PyFloat.le score 0.7 = true ->
   severity = "medium"%string) /\
  (Monitor.dataset_drift_detected d = true ->
   PyFloat.le score 0.5 = true -> severity = "low"%string).
Proof.
  intros severity score. subst severity score.
  rewrite drift_severity_eq.
  repeat split.
  - intros ->. reflexivity.
  - intros -> ->. reflexivity.
  - intros -> H5 H7. rewrite (float_le_not_gt _ _ H7), H5. reflexivity.
  - intros -> H5.
    rewrite (float_le_lt_not_gt _ 0.5 0.7 H5 eq_refl).
    rewrite (float_le_not_gt _ _ H5). reflexivity.
Qed.


(** C2 at four inputs: no drift with score 0.9; drift with scores 0.75,
    0.6 and 0.5. *)
Lemma C2_witness :
  Monitor.drift_severity
    (Monitor.generate_monitoring_summary "t"
       (Monitor.mk_data_drift_results false 0.9 4)
       (Monitor.mk_test_results 5 5 1) None) = "none"%string /\
  Monitor.drift_severity
    (Monitor.generate_monitoring_summary "t"
       (Monitor.mk_data_drift_results true 0.75 3)
       (Monitor.mk_test_results 5 5 1) None) = "high"%string /\
  Monitor.drift_severity
    (Monitor.generate_monitoring_summary "t"
       (Monitor.mk_data_drift_results true 0.6 3)
       (Monitor.mk_test_results 5 5 1) None) = "medium"%string /\
  Monitor.drift_severity
    (Monitor.generate_monitoring_summary "t"
       (Monitor.mk_data_drift_results true 0.5 2)
       (Monitor.mk_test_results 5 5 1) None) = "low"%string.
Proof.
  split; [|split; [|split]].
  - apply (C2_drift_severity "t"
             (Monitor.mk_data_drift_results false 0.9 4)
             (Monitor.mk_test_results 5 5 1) None). reflexivity.
  - apply (C2_drift_severity "t"
             (Monitor.mk_data_drift_results true 0.75 3)
             (Monitor.mk_test_results 5 5 1) None); reflexivity.
  - apply (C2_drift_severity "t"
             (Monitor.mk_data_drift_results true 0.6 3)
             (Monitor.mk_test_results 5 5 1) None); reflexivity.
  - apply (C2_drift_severity "t"
             (Monitor.mk_data_drift_results true 0.5 2)
             (Monitor.mk_test_results 5 5 1) None); reflexivity.
Defined.

(** C8.  For every monitoring input the overall status is "alert"
    exactly when the severity is "medium" or "high", and "ok" in every
    other case, the "low" severity of a detected drift included. *)
Theorem C8_overall_status
    (now : string) (d : Monitor.DataDriftResults) (t : Monitor.TestResults)
    (p : option Monitor.PredictionDrift) :
  let s := Monitor.generate_monitoring_summary now d t p in
  (Monitor.overall_status s = "alert"%string <->
   Monitor.drift_severity s = "medium"%string \/
   Monitor.drift_severity s = "high"%string) /\
  (Monitor.overall_status s = "ok"%string <->
   ~ (Monitor.drift_severity s = "medium"%string \/
      Monitor.drift_severity s = "high"%string)) /\
  (Monitor.dataset_drift_detected d = true ->
   Monitor.drift_severity s = "low"%string ->
   Monitor.overall_status s = "ok"%string).
Proof.
  intros s. subst s.
  rewrite overall_status_eq.
  destruct (drift_severity_cases now d t p) as [H|[H|[H|H]]];
    rewrite H; simpl; (split; [|split]);
    try (split; intros; try discriminate; intuition (auto; discriminate));
    intros; try reflexivity; discriminate.
Qed.

(** C8 at a detected drift of score 0.4, whose severity is "low". *)
Lemma C8_witness :
  Monitor.overall_status
    (Monitor.generate_monitoring_summary "t"
       (Monitor.mk_data_drift_results true 0.4 1)
       (Monitor.mk_test_results 5 5 1) None) = "ok"%string.
Proof.
  apply (C8_overall_status "t"
           (Monitor.mk_data_drift_results true 0.4 1)
           (Monitor.mk_test_results 5 5 1) None); reflexivity.
Defined.

(** C4.  The recommendations are the entries of the triggered rules in
    the fixed order retrain, investigate pipeline, immediate attention,
    monitor performance: retrain iff the severity is "medium" or "high",
    investigate iff more than two features drifted, attention iff the
    success rate is below 0.8, monitor iff a prediction-drift result was
    supplied and reports drift.  At score 0.75 with drift detected, three
    drifted features, success rate 0.9 and no prediction drift, the list
    is the retrain entry followed by the investigate entry. *)
Theorem C4_recommendations :
  (forall (now : string) (d : Monitor.DataDriftResults)
          (t : Monitor.TestResults) (p : option Monitor.PredictionDrift),
      let s := Monitor.generate_monitoring_summary now d t p in
      Monitor.recommendations s =
        (if String.eqb (Monitor.drift_severity s) "medium"
            || String.eqb (Monitor.drift_severity s) "high"
         then [Monitor.rec_retrain] else []) ++
        (if (2 <? Monitor.n_features_drifted d)%Z
         then [Monitor.rec_investigate] else []) ++
        (if PyFloat.lt (Monitor.success_rate t) 0.8
         then [Monitor.rec_attention] else []) ++
        (if match p with
            | Some pd => Monitor.drift_detected pd
            | None => false
            end
         then [Monitor.rec_monitor] else [])) /\
  (forall now : string,
      Monitor.recommendations
        (Monitor.generate_monitoring_summary now
           (Monitor.mk_data_drift_results true 0.75 3)
           (Monitor.mk_test_results 10 9 0.9) None) =
        [Monitor.rec_retrain; Monitor.rec_investigate]).
Proof.
  split.
  - intros now d t p s. subst s.
    rewrite recommendations_eq, !append_if_app. simpl app at 1.
    unfold py_in. simpl existsb. rewrite orb_false_r.
    rewrite <- !app_assoc. reflexivity.
  - intros now. reflexivity.
Qed.

(** ** Series built from a prediction column *)

Section SeriesFacts.

Import Monitor Notions.

Lemma in_labels_insert_by_index (x : Z * R) (s : series) (k : Z) :
  In k (map fst (insert_by_index x s)) <-> k = fst x \/ In k (map fst s).
Proof.
  induction s as [|y s IH]; simpl.
  - intuition auto.
  - destruct (fst x <=? fst y)%Z; simpl.
    + intuition auto.
    + rewrite IH. intuition auto.
Qed.

Lemma in_labels_sort_index (s : series) (k : Z) :
  In k (map fst (sort_index s)) <-> In k (map fst s).
Proof.
  induction s as [|x s IH]; simpl; [reflexivity|].
  rewrite in_labels_insert_by_index, IH. intuition auto.
Qed.

Lemma length_insert_by_index (x : Z * R) (s : series) :
  length (insert_by_index x s) = S (length s).
Proof.
  induction s as [|y s IH]; simpl; [reflexivity|].
  destruct (fst x <=? fst y)%Z; simpl; [reflexivity | now rewrite IH].
Qed.

Lemma length_sort_index (s : series) : length (sort_index s) = length s.
Proof.
  induction s as [|x s IH]; simpl; [reflexivity|].
  now rewrite length_insert_by_index, IH.
Qed.

Lemma get_not_in (s : series) (k : Z) (dflt : R) :
  ~ In k (map fst s) -> get s k dflt = dflt.
Proof.
  induction s as [|[k' v] s IH]; simpl; [reflexivity|].
  intros H. destruct (Z.eqb_spec k' k) as [->|_].
  - exfalso. apply H. now left.
  - apply IH. intros Hin. apply H. now right.
Qed.

Lemma get_insert_by_index (x : Z * R) (s : series) (k : Z) (dflt : R) :
  ~ In (fst x) (map fst s) ->
  get (insert_by_index x s) k dflt =
    if (fst x =? k)%Z then snd x else get s k dflt.
Proof.
  destruct x as [kx vx]. simpl fst. simpl snd.
  induction s as [|[ky vy] s IH]; simpl; intros Hnin.
  - reflexivity.
  - destruct (kx <=? ky)%Z; simpl.
    + reflexivity.
    + rewrite IH by (intros Hin; apply Hnin; now right).
      destruct (Z.eqb_spec ky k) as [->|Hky]; [|reflexivity].
      destruct (Z.eqb_spec kx k) as [->|_]; [|reflexivity].
      exfalso. apply Hnin. now left.
Qed.

Lemma get_sort_index (s : series) (k : Z) (dflt : R) :
  List.NoDup (map fst s) -> get (sort_index s) k dflt = get s k dflt.
Proof.
  induction s as [|[kx vx] s IH]; simpl; intros Hnd; [reflexivity|].
  inversion Hnd as [|? ? Hnin Hnd']; subst.
  rewrite get_insert_by_index.
  - simpl. now rewrite IH.
  - simpl. now rewrite in_labels_sort_index.
Qed.

Lemma labels_value_counts_normalize (col : list Z) :
  map fst (value_counts_normalize col) = nodup Z.eq_dec col.
Proof.
  unfold value_counts_normalize. rewrite map_map. simpl. apply map_id.
Qed.

Lemma get_tabulated (f : Z -> R) (l : list Z) (k : Z) (dflt : R) :
  get (map (fun v => (v, f v)) l) k dflt =
    if in_dec Z.eq_dec k l then f k else dflt.
Proof.
  induction l as [|v l IH]; simpl; [reflexivity|].
  destruct (Z.eqb_spec v k) as [->|Hvk].
  - destruct (Z.eq_dec k k); [reflexivity | contradiction].
  - rewrite IH. destruct (Z.eq_dec v k); [contradiction|].
    destruct (in_dec Z.eq_dec k l); reflexivity.
Qed.

(** What [get] reads in a distribution: the relative frequency of an
    observed class, the default for any other. *)
Lemma get_distribution (col : list Z) (k : Z) (dflt : R) :
  get (distribution col) k dflt =
    if (count_occ Z.eq_dec col k =? 0)%nat then dflt
    else (INR (count_occ Z.eq_dec col k) / INR (length col))%R.
Proof.
  unfold distribution.
  rewrite get_sort_index
    by (rewrite labels_value_counts_normalize; apply NoDup_nodup).
  unfold value_counts_normalize. rewrite get_tabulated.
  destruct (in_dec Z.eq_dec k (nodup Z.eq_dec col)) as [Hin|Hnin].
  - apply nodup_In in Hin. apply (count_occ_In Z.eq_dec) in Hin.
    destruct (Nat.eqb_spec (count_occ Z.eq_dec col k) 0); [lia | reflexivity].
  - rewrite nodup_In in Hnin. apply (count_occ_not_In Z.eq_dec) in Hnin.
    rewrite Hnin. reflexivity.
Qed.

Lemma get_distribution_floor (col : list Z) (k : Z) :
  get (distribution col) k 1e-10%R = class_prob col k.
Proof. apply get_distribution. Qed.

Lemma class_prob_pos (col : list Z) (k : Z) : (0 < class_prob col k)%R.
Proof.
  unfold class_prob.
  destruct (Nat.eqb_spec (count_occ Z.eq_dec col k) 0) as [_|Hc].
  - lra.
  - pose proof (count_occ_bound Z.eq_dec k col) as Hb.
    apply Rdiv_lt_0_compat; apply lt_0_INR; lia.
Qed.

Lemma length_distribution (col : list Z) :
  length (distribution col) = length (nodup Z.eq_dec col).
Proof.
  unfold distribution, value_counts_normalize.
  now rewrite length_sort_index, length_map.
Qed.

Lemma length_values_distribution (col : list Z) :
  length (values (distribution col)) = length (nodup Z.eq_dec col).
Proof. unfold values. rewrite length_map. apply length_distribution. Qed.

(** The loop of lines 243-247, unrolled. *)
Lemma kl_loop_distribution (reference current : list Z) :
  kl_loop (distribution reference) (distribution current) =
    kl_sum reference current.
Proof.
  unfold kl_loop, kl_sum, kl_step, range. simpl.
  rewrite !get_distribution_floor. reflexivity.
Qed.

End SeriesFacts.

(** ** Order of the labels of a distribution *)

Section LabelOrder.

Import Monitor Notions.

Lemma insert_by_index_perm (x : Z * R) (s : series) :
  Permutation (insert_by_index x s) (x :: s).
Proof.
  induction s as [|y s IH]; simpl; [reflexivity|].
  destruct (fst x <=? fst y)%Z; [reflexivity|].
  rewrite IH. apply perm_swap.
Qed.

Lemma sort_index_perm (s : series) : Permutation (sort_index s) s.
Proof.
  induction s as [|x s IH]; simpl; [reflexivity|].
  rewrite insert_by_index_perm. now apply perm_skip.
Qed.

Lemma insert_by_index_sorted (x : Z * R) (s : series) :
  Sorted Z.le (map fst s) -> Sorted Z.le (map fst (insert_by_index x s)).
Proof.
  induction s as [|y s IH]; simpl; intros Hs.
  - repeat constructor.
  - destruct (Z.leb_spec (fst x) (fst y)) as [Hle|Hgt]; simpl.
    + constructor; [assumption|]. constructor. assumption.
    + inversion Hs as [|? ? Hs' Hhd]; subst.
      constructor; [auto|].
      destruct s as [|z s]; simpl.
      * constructor. lia.
      * destruct (Z.leb_spec (fst x) (fst z)); simpl; constructor;
          [lia|]. inversion Hhd; subst. assumption.
Qed.

Lemma sort_index_sorted (s : series) : Sorted Z.le (map fst (sort_index s)).
Proof.
  induction s as [|x s IH]; simpl; [constructor|].
  now apply insert_by_index_sorted.
Qed.

Lemma observed_labels_sorted (col : list Z) :
  Sorted Z.le (observed_labels col).
Proof. apply sort_index_sorted. Qed.

Lemma observed_labels_perm (col : list Z) :
  Permutation (observed_labels col) (nodup Z.eq_dec col).
Proof.
  unfold observed_labels, distribution.
  rewrite <- labels_value_counts_normalize.
  apply Permutation_map, sort_index_perm.
Qed.

Lemma observed_labels_nodup (col : list Z) : List.NoDup (observed_labels col).
Proof.
  apply (Permutation_NoDup (l := nodup Z.eq_dec col)).
  - symmetry. apply observed_labels_perm.
  - apply NoDup_nodup.
Qed.

Lemma in_observed_labels (col : list Z) (z : Z) :
  In z (observed_labels col) <-> In z col.
Proof.
  unfold observed_labels, distribution.
  rewrite in_labels_sort_index, labels_value_counts_normalize.
  apply nodup_In.
Qed.

Lemma length_observed_labels (col : list Z) :
  length (observed_labels col) = length (nodup Z.eq_dec col).
Proof. unfold observed_labels. rewrite length_map. apply length_distribution. Qed.

(** Two columns observe the same labels exactly when their label lists
    coincide. *)
Lemma observed_labels_eq_iff (c1 c2 : list Z) :
  observed_labels c1 = observed_labels c2 <->
  (forall z, In z c1 <-> In z c2).
Proof.
  split.
  - intros H z. rewrite <- (in_observed_labels c1), <- (in_observed_labels c2).
    now rewrite H.
  - intros H. apply (Sorted_unique Z.le).
    + apply observed_labels_sorted.
    + apply observed_labels_sorted.
    + apply Permutation.NoDup_Permutation.
      * apply observed_labels_nodup.
      * apply observed_labels_nodup.
      * intros z. rewrite !in_observed_labels. apply H.
Qed.

(** Position by position agreement of two lists of equal length. *)
Lemma combine_diag_eq {A : Type} (l1 l2 : list A) :
  length l1 = length l2 ->
  (Forall (fun ab => fst ab = snd ab) (combine l1 l2) <-> l1 = l2).
Proof.
  revert l2. induction l1 as [|a l1 IH]; intros [|b l2]; simpl;
    try discriminate.
  - intros _. split; [reflexivity | constructor].
  - intros [= Hlen]. split.
    + intros HF. inversion HF as [|? ? Hab HF']; subst. simpl in Hab.
      subst b. f_equal. now apply IH.
    + intros [= -> ->]. constructor; [reflexivity|].
      now apply IH.
Qed.

End LabelOrder.

(** ** The chi-square statistic against the count-based statistic *)

Section CountStatistic.

Import Monitor Notions.

Lemma tabulated_labels (f : Z -> R) (s : series) :
  Forall (fun kv => snd kv = f (fst kv)) s ->
  s = map (fun v => (v, f v)) (map fst s).
Proof.
  induction 1 as [|[k v] s Hkv _ IH]; simpl; [reflexivity|].
  simpl in Hkv. subst v. now rewrite <- IH.
Qed.

Lemma distribution_tabulated (col : list Z) :
  distribution col = map (fun v => (v, freq col v)) (observed_labels col).
Proof.
  unfold observed_labels. apply tabulated_labels.
  apply List.Forall_forall. intros kv Hin.
  apply (Permutation_in _ (sort_index_perm _)) in Hin.
  unfold value_counts_normalize in Hin. apply in_map_iff in Hin.
  destruct Hin as (v & <- & _). reflexivity.
Qed.

Lemma values_distribution (col : list Z) :
  values (distribution col) = map (freq col) (observed_labels col).
Proof.
  unfold values. rewrite distribution_tabulated at 1.
  rewrite map_map. reflexivity.
Qed.

Lemma freq_pos (col : list Z) (v : Z) : In v col -> (0 < freq col v)%R.
Proof.
  intros Hin. apply (count_occ_In Z.eq_dec) in Hin.
  pose proof (count_occ_bound Z.eq_dec v col) as Hb.
  apply Rdiv_lt_0_compat; apply lt_0_INR; lia.
Qed.

Lemma values_distribution_pos (col : list Z) :
  Forall (fun e => (0 < e)%R) (values (distribution col)).
Proof.
  rewrite values_distribution. apply List.Forall_forall.
  intros e Hin. apply in_map_iff in Hin. destruct Hin as (v & <- & Hv).
  apply freq_pos. now apply in_observed_labels.
Qed.

(** Scaling both arguments of Pearson's statistic by [n] scales the
    statistic by [n]. *)
Lemma pearson_scale (n : R) (cs es : list R) :
  (n <> 0)%R -> Forall (fun e => (0 < e)%R) es ->
  pearson (map (Rmult n) cs) (map (Rmult n) es) = (n * pearson cs es)%R.
Proof.
  intros Hn Hes. unfold pearson. revert cs.
  induction Hes as [|e es He _ IH]; intros [|c cs];
    cbn [map combine fold_right fst snd];
    try (symmetry; apply Rmult_0_r).
  rewrite IH. field. split; lra.
Qed.

Lemma observed_counts_scaled (current : list Z) :
  current <> [] ->
  observed_counts current =
    map (Rmult (INR (length current))) (values (distribution current)).
Proof.
  intros Hne. unfold observed_counts.
  rewrite values_distribution, map_map. apply map_ext.
  intros v. unfold freq. field.
  apply not_0_INR. destruct current; [contradiction | discriminate].
Qed.

(** The statistic computed on proportions is the count-based
    goodness-of-fit statistic divided by the number of current
    predictions. *)
Lemma pearson_on_proportions (current reference : list Z) :
  current <> [] ->
  goodness_of_fit_on_counts current reference =
    (INR (length current)
     * pearson (values (distribution current))
               (values (distribution reference)))%R.
Proof.
  intros Hne. unfold goodness_of_fit_on_counts, expected_counts.
  rewrite observed_counts_scaled by assumption.
  apply pearson_scale.
  - apply not_0_INR. destruct current; [contradiction | discriminate].
  - apply values_distribution_pos.
Qed.

End CountStatistic.

(** ** The distributions of the prediction monitor *)

Section DistributionFacts.

Import Monitor Notions.

Lemma indicator_sum (a : Z) (ks : list Z) :
  List.NoDup ks -> In a ks ->
  fold_right Nat.add 0%nat
    (map (fun k => if Z.eq_dec a k then 1%nat else 0%nat) ks) = 1%nat.
Proof.
  induction 1 as [|k ks Hnin Hnd IH]; simpl; [contradiction|].
  intros [->|Hin].
  - destruct (Z.eq_dec a a); [|contradiction].
    f_equal. clear IH Hnd.
    induction ks as [|k ks IH]; simpl; [reflexivity|].
    destruct (Z.eq_dec a k) as [->|_].
    + exfalso. apply Hnin. now left.
    + apply IH. intros H. apply Hnin. now right.
  - destruct (Z.eq_dec a k) as [->|_]; [contradiction|].
    now apply IH.
Qed.

(** The counts of the labels of a column add up to its length. *)
Lemma count_sum (col ks : list Z) :
  List.NoDup ks -> (forall z, In z col -> In z ks) ->
  fold_right Nat.add 0%nat (map (count_occ Z.eq_dec col) ks) = length col.
Proof.
  intros Hnd. induction col as [|a col IH]; intros Hin.
  - simpl. clear. induction ks; simpl; [reflexivity | assumption].
  - cbn [length]. rewrite <- (IH (fun z Hz => Hin z (or_intror Hz))).
    pose proof (indicator_sum a ks Hnd (Hin a (or_introl eq_refl))) as H1.
    assert (Hsplit :
      fold_right Nat.add 0%nat (map (count_occ Z.eq_dec (a :: col)) ks) =
      (fold_right Nat.add 0%nat
         (map (fun k => if Z.eq_dec a k then 1%nat else 0%nat) ks)
       + fold_right Nat.add 0%nat (map (count_occ Z.eq_dec col) ks))%nat).
    { clear. induction ks as [|k ks IHk]; [reflexivity|].
      cbn [map fold_right]. rewrite IHk. simpl count_occ.
      destruct (Z.eq_dec a k); lia. }
    lia.
Qed.

Lemma freq_sum (col ks : list Z) :
  fold_right Rplus 0%R (map (freq col) ks) =
    (INR (fold_right Nat.add 0%nat (map (count_occ Z.eq_dec col) ks))
     / INR (length col))%R.
Proof.
  induction ks as [|k ks IH]; simpl.
  - unfold Rdiv. ring.
  - rewrite IH, plus_INR. unfold freq, Rdiv. ring.
Qed.

(** The values of the distribution of a non-empty column add up to 1. *)
Lemma distribution_sum (col : list Z) :
  col <> [] ->
  fold_right Rplus 0%R (values (distribution col)) = 1%R.
Proof.
  intros Hne. rewrite values_distribution, freq_sum.
  rewrite count_sum.
  - field. apply not_0_INR. destruct col; [contradiction | discriminate].
  - apply observed_labels_nodup.
  - intros z Hz. now apply in_observed_labels.
Qed.

Lemma freq_le_1 (col : list Z) (v : Z) : In v col -> (freq col v <= 1)%R.
Proof.
  intros Hin. unfold freq.
  pose proof (count_occ_bound Z.eq_dec v col) as Hb.
  assert (Hn : (0 < INR (length col))%R).
  { apply lt_0_INR. destruct col; [contradiction | simpl; lia]. }
  apply (Rmult_le_reg_r (INR (length col))); [assumption|].
  unfold Rdiv. rewrite Rmult_assoc, Rinv_l, Rmult_1_r, Rmult_1_l by lra.
  now apply le_INR.
Qed.

(** The labels of a distribution increase strictly. *)
Lemma observed_labels_increasing (col : list Z) :
  Sorted Z.lt (observed_labels col).
Proof.
  pose proof (observed_labels_sorted col) as Hs.
  pose proof (observed_labels_nodup col) as Hnd.
  induction Hs as [|a l Hs IH Hhd]; [constructor|].
  inversion Hnd as [|? ? Hnin Hnd']; subst.
  constructor; [auto|].
  destruct Hhd as [|b l Hab]; constructor.
  assert (a <> b) by (intros ->; apply Hnin; now left).
  lia.
Qed.

(** Every entry of a distribution is the frequency of an observed label. *)
Lemma in_distribution (col : list Z) (k : Z) (v : R) :
  In (k, v) (distribution col) -> In k col /\ v = freq col k.
Proof.
  rewrite distribution_tabulated. intros Hin.
  apply in_map_iff in Hin. destruct Hin as (k' & [= <- <-] & Hk).
  split; [now apply in_observed_labels | reflexivity].
Qed.

(** The distribution of a column depends on its label frequencies only. *)
Lemma distribution_ext (c1 c2 : list Z) :
  (forall z, In z c1 <-> In z c2) ->
  (forall z, freq c1 z = freq c2 z) ->
  distribution c1 = distribution c2.
Proof.
  intros Hin Hfreq.
  rewrite (distribution_tabulated c1), (distribution_tabulated c2).
  apply observed_labels_eq_iff in Hin. rewrite Hin.
  apply map_ext. intros v. now rewrite Hfreq.
Qed.

Lemma distribution_app_self (col : list Z) :
  distribution (col ++ col) = distribution col.
Proof.
  apply distribution_ext.
  - intros z. rewrite in_app_iff. tauto.
  - intros z. unfold freq.
    rewrite count_occ_app, length_app, !plus_INR.
    destruct col as [|a col]; [simpl; unfold Rdiv; ring|].
    assert (0 < INR (length (a :: col)))%R
      by (apply lt_0_INR; simpl; lia).
    field. split; lra.
Qed.

Lemma pearson_nonneg (os es : list R) :
  Forall (fun e => (0 < e)%R) es -> (0 <= pearson os es)%R.
Proof.
  intros Hes. unfold pearson. revert os.
  induction Hes as [|e es He _ IH]; intros [|o os];
    cbn [map combine fold_right fst snd]; try lra.
  specialize (IH os).
  assert (0 <= (o - e) ^ 2 / e)%R.
  { apply Rmult_le_pos; [apply pow2_ge_0 |].
    left. now apply Rinv_0_lt_compat. }
  lra.
Qed.

Lemma pearson_diag (es : list R) :
  Forall (fun e => (0 < e)%R) es -> pearson es es = 0%R.
Proof.
  unfold pearson. induction 1 as [|e es He _ IH];
    cbn [map combine fold_right fst snd]; [reflexivity|].
  rewrite IH. field. lra.
Qed.

End DistributionFacts.

Section PredictionDriftFacts.

Import Monitor Notions.

Variable chi2_sf : R -> Z -> R.

(** The monitor, with its local values named. *)
Lemma monitor_prediction_drift_eq (self : DriftMonitor) (g : rng)
    (current : list Z) (reference_predictions : option (list Z)) :
  monitor_prediction_drift chi2_sf self g current reference_predictions =
    let reference := effective_reference self g reference_predictions in
    let* chi2 :=
      chisquare chi2_sf (values (distribution current))
        (values (distribution reference)) in
    Ok {| kl_divergence :=
            kl_loop (distribution reference) (distribution current);
          chi2_statistic := fst chi2;
          p_value := snd chi2;
          drift_detected := if Rlt_dec (snd chi2) 0.05%R then true else false;
          current_distribution := distribution current;
          reference_distribution := distribution reference |}.
Proof. destruct reference_predictions; reflexivity. Qed.

(** Equal sums pass the test on the sums. *)
Lemma relative_diff_same (s : R) : relative_diff_exceeds s s 1e-8%R = false.
Proof.
  unfold relative_diff_exceeds.
  replace (s - s)%R with 0%R by ring. rewrite Rabs_R0.
  destruct (Req_dec_T (Rmin s s) 0).
  - destruct (Rlt_dec 0 0); [lra | reflexivity].
  - destruct (Rlt_dec 1e-8 (0 / Rmin s s)) as [H|_]; [|reflexivity].
    unfold Rdiv in H. rewrite Rmult_0_l in H. lra.
Qed.

(** Sums that differ by one or more, the smaller being 1, fail it. *)
Lemma relative_diff_far (a b : R) :
  (Rmin a b = 1)%R -> (1 <= Rabs (a - b))%R ->
  relative_diff_exceeds a b 1e-8%R = true.
Proof.
  intros Hm Hd. unfold relative_diff_exceeds. rewrite Hm.
  destruct (Req_dec_T 1 0); [lra|].
  destruct (Rlt_dec 1e-8 (Rabs (a - b) / 1)) as [_|H]; [reflexivity|].
  exfalso. apply H. unfold Rdiv. rewrite Rinv_1, Rmult_1_r. lra.
Qed.

Lemma sum_repeat (x : R) (n : nat) :
  fold_right Rplus 0%R (repeat x n) = (INR n * x)%R.
Proof.
  induction n as [|n IH]; [simpl; ring|].
  cbn [repeat fold_right]. rewrite IH, S_INR. ring.
Qed.

(** [chisquare] on arrays of equal length and equal sum. *)
Lemma chisquare_ok (f_obs f_exp : list R) :
  length f_obs = length f_exp ->
  fold_right Rplus 0%R f_obs = fold_right Rplus 0%R f_exp ->
  chisquare chi2_sf f_obs f_exp =
    Ok (pearson f_obs f_exp,
        chi2_sf (pearson f_obs f_exp) (Z.of_nat (length f_obs) - 1)).
Proof.
  intros Hlen Hsum. unfold chisquare, broadcast.
  rewrite Hlen, Nat.eqb_refl. cbn [bind fst snd].
  rewrite Hsum, relative_diff_same.
  rewrite length_map, length_combine, Hlen, Nat.min_id. reflexivity.
Qed.

(** [chisquare] on an empty array against an array of length one: both
    are broadcast to the empty array. *)
Lemma chisquare_empty_one (y : R) :
  chisquare chi2_sf [] [y] = Ok (0%R, chi2_sf 0%R (-1)%Z) /\
  chisquare chi2_sf [y] [] = Ok (0%R, chi2_sf 0%R (-1)%Z).
Proof.
  unfold chisquare, broadcast. cbn [length Nat.eqb repeat bind fst snd
    fold_right combine map].
  rewrite relative_diff_same. split; reflexivity.
Qed.

(** Lengths that differ, neither being one, cannot be broadcast. *)
Lemma chisquare_shape_raise (f_obs f_exp : list R) :
  length f_obs <> length f_exp ->
  length f_obs <> 1%nat -> length f_exp <> 1%nat ->
  chisquare chi2_sf f_obs f_exp = Raise ValueError.
Proof.
  intros Hne Ho He. unfold chisquare, broadcast.
  destruct (Nat.eqb_spec (length f_obs) (length f_exp)); [contradiction|].
  destruct f_obs as [|x [|x' f_obs] ], f_exp as [|y [|y' f_exp] ];
    simpl in *; try reflexivity; contradiction.
Qed.

(** An array holding the single frequency 1, stretched against two or
    more frequencies that add up to 1: the sums disagree. *)
Lemma chisquare_stretch_raise (fs : list R) :
  (2 <= length fs)%nat -> fold_right Rplus 0%R fs = 1%R ->
  chisquare chi2_sf [1%R] fs = Raise ValueError /\
  chisquare chi2_sf fs [1%R] = Raise ValueError.
Proof.
  intros Hlen Hsum.
  assert (Hk : (2 <= INR (length fs))%R).
  { change 2%R with (INR 2). now apply le_INR. }
  unfold chisquare, broadcast.
  destruct (Nat.eqb_spec (length [1%R]) (length fs)) as [E|_];
    [simpl in E; lia|].
  destruct (Nat.eqb_spec (length fs) (length [1%R])) as [E|_];
    [simpl in E; lia|].
  destruct fs as [|a [|b fs] ]; try (simpl in Hlen; lia).
  cbn [bind fst snd]. rewrite sum_repeat, Hsum, Rmult_1_r.
  rewrite !relative_diff_far; [split; reflexivity | | | |].
  - rewrite Rmin_left by lra. reflexivity.
  - rewrite Rabs_left1 by lra. lra.
  - rewrite Rmin_right by lra. reflexivity.
  - rewrite Rabs_right by lra. lra.
Qed.

(** A column without labels is empty, and a column with one label has the
    distribution [1]. *)
Lemma nodup_empty (col : list Z) :
  length (nodup Z.eq_dec col) = 0%nat -> col = [].
Proof.
  destruct col as [|a col]; [reflexivity|]. intros H.
  assert (Hin : In a (nodup Z.eq_dec (a :: col)))
    by (apply nodup_In; now left).
  destruct (nodup Z.eq_dec (a :: col)); [contradiction | discriminate].
Qed.

Lemma values_one_label (col : list Z) :
  length (nodup Z.eq_dec col) = 1%nat ->
  values (distribution col) = [1%R].
Proof.
  intros H.
  assert (Hne : col <> []) by (intros ->; discriminate H).
  pose proof (distribution_sum col Hne) as Hsum.
  rewrite <- length_values_distribution in H.
  destruct (values (distribution col)) as [|v [|w l] ];
    try discriminate H.
  simpl in Hsum. f_equal. lra.
Qed.

Lemma values_sum_eq (c1 c2 : list Z) :
  length (nodup Z.eq_dec c1) = length (nodup Z.eq_dec c2) ->
  fold_right Rplus 0%R (values (distribution c1)) =
  fold_right Rplus 0%R (values (distribution c2)).
Proof.
  intros H. destruct c1 as [|a c1].
  - symmetry in H. apply nodup_empty in H. subst c2. reflexivity.
  - assert (c2 <> []).
    { intros ->. apply (nodup_empty (a :: c1)) in H. discriminate. }
    rewrite !distribution_sum by (assumption || discriminate).
    reflexivity.
Qed.

(** The monitor on inputs with the same number of distinct labels. *)
Lemma monitor_prediction_drift_ok (self : DriftMonitor) (g : rng)
    (current : list Z) (reference_predictions : option (list Z)) :
  let reference := effective_reference self g reference_predictions in
  length (nodup Z.eq_dec current) = length (nodup Z.eq_dec reference) ->
  monitor_prediction_drift chi2_sf self g current reference_predictions =
    let stat :=
      pearson (values (distribution current))
              (values (distribution reference)) in
    let p := chi2_sf stat (Z.of_nat (length (nodup Z.eq_dec current)) - 1) in
    Ok {| kl_divergence := kl_sum reference current;
          chi2_statistic := stat;
          p_value := p;
          drift_detected := if Rlt_dec p 0.05%R then true else false;
          current_distribution := distribution current;
          reference_distribution := distribution reference |}.
Proof.
  intros reference Hlen. rewrite monitor_prediction_drift_eq. cbv zeta.
  fold reference.
  rewrite chisquare_ok
    by (rewrite ?length_values_distribution; auto using values_sum_eq).
  simpl. rewrite kl_loop_distribution, length_values_distribution.
  reflexivity.
Qed.

(** The monitor on degenerate inputs: the test runs on empty arrays. *)
Lemma monitor_prediction_drift_degenerate (self : DriftMonitor) (g : rng)
    (current : list Z) (reference_predictions : option (list Z)) :
  let reference := effective_reference self g reference_predictions in
  degenerate_lengths (length (nodup Z.eq_dec current))
                     (length (nodup Z.eq_dec reference)) ->
  monitor_prediction_drift chi2_sf self g current reference_predictions =
    let p := chi2_sf 0%R (-1)%Z in
    Ok {| kl_divergence := kl_sum reference current;
          chi2_statistic := 0%R;
          p_value := p;
          drift_detected := if Rlt_dec p 0.05%R then true else false;
          current_distribution := distribution current;
          reference_distribution := distribution reference |}.
Proof.
  intros reference Hdeg. rewrite monitor_prediction_drift_eq. cbv zeta.
  fold reference. rewrite kl_loop_distribution.
  destruct Hdeg as [[H0 H1]|[H1 H0]];
    apply nodup_empty in H0; apply values_one_label in H1;
    rewrite H0, H1;
    change (values (distribution [])) with (@nil R).
  - rewrite (proj1 (chisquare_empty_one 1)). reflexivity.
  - rewrite (proj2 (chisquare_empty_one 1)). reflexivity.
Qed.

(** On every other pair of inputs the chi-square test raises. *)
Lemma monitor_prediction_drift_raise (self : DriftMonitor) (g : rng)
    (current : list Z) (reference_predictions : option (list Z)) :
  let reference := effective_reference self g reference_predictions in
  length (nodup Z.eq_dec current) <> length (nodup Z.eq_dec reference) ->
  ~ degenerate_lengths (length (nodup Z.eq_dec current))
                       (length (nodup Z.eq_dec reference)) ->
  monitor_prediction_drift chi2_sf self g current reference_predictions =
    Raise ValueError.
Proof.
  intros reference Hne Hdeg. rewrite monitor_prediction_drift_eq. cbv zeta.
  fold reference. unfold degenerate_lengths in Hdeg.
  assert (Hraise :
    chisquare chi2_sf (values (distribution current))
      (values (distribution reference)) = Raise ValueError).
  { destruct (Nat.eq_dec (length (nodup Z.eq_dec current)) 1) as [Hc|Hc].
    - rewrite (values_one_label current Hc).
      apply chisquare_stretch_raise.
      + rewrite length_values_distribution. lia.
      + apply distribution_sum. intros ->. simpl in *. lia.
    - destruct (Nat.eq_dec (length (nodup Z.eq_dec reference)) 1)
        as [Hr|Hr].
      + rewrite (values_one_label reference Hr).
        apply chisquare_stretch_raise.
        * rewrite length_values_distribution. lia.
        * apply distribution_sum. intros ->. simpl in *. lia.
      + apply chisquare_shape_raise;
          rewrite !length_values_distribution; assumption. }
  rewrite Hraise. reflexivity.
Qed.

(** The three cases of a run. *)
Lemma monitor_prediction_drift_cases (self : DriftMonitor) (g : rng)
    (current : list Z) (reference_predictions : option (list Z))
    (r : PredictionDrift) :
  let reference := effective_reference self g reference_predictions in
  monitor_prediction_drift chi2_sf self g current reference_predictions
    = Ok r ->
  (length (nodup Z.eq_dec current) = length (nodup Z.eq_dec reference) /\
   chi2_statistic r =
     pearson (values (distribution current))
             (values (distribution reference))) \/
  (degenerate_lengths (length (nodup Z.eq_dec current))
                      (length (nodup Z.eq_dec reference)) /\
   chi2_statistic r = 0%R).
Proof.
  intros reference Hr.
  destruct (Nat.eq_dec (length (nodup Z.eq_dec current))
                       (length (nodup Z.eq_dec reference))) as [E|NE].
  - left. split; [exact E|].
    rewrite (monitor_prediction_drift_ok self g current
               reference_predictions E) in Hr.
    cbv zeta in Hr. injection Hr as <-. reflexivity.
  - assert (Hdeg : degenerate_lengths
                     (length (nodup Z.eq_dec current))
                     (length (nodup Z.eq_dec reference))).
    { unfold degenerate_lengths.
      destruct (Nat.eq_dec (length (nodup Z.eq_dec current)) 0),
        (Nat.eq_dec (length (nodup Z.eq_dec reference)) 1),
        (Nat.eq_dec (length (nodup Z.eq_dec current)) 1),
        (Nat.eq_dec (length (nodup Z.eq_dec reference)) 0);
        try (now left); try (now right);
        (rewrite (monitor_prediction_drift_raise self g current
                    reference_predictions NE) in Hr;
         [discriminate | unfold degenerate_lengths; fold reference; lia]). }
    right. split; [exact Hdeg|].
    rewrite (monitor_prediction_drift_degenerate self g current
               reference_predictions Hdeg) in Hr.
    cbv zeta in Hr. injection Hr as <-. reflexivity.
Qed.

End PredictionDriftFacts.


(** C5.  For every pair of prediction samples the monitor computes
    [kl_divergence] as the sum, over the classes 0, 1 and 2, of
    [p * log (p / q)], with [p] the normalised frequency of the class in
    the reference predictions and [q] the one in the current predictions,
    a class that does not occur taking the floor [1e-10] on either side;
    every [p] and [q] is positive, so no term divides by zero or takes the
    logarithm of zero. *)
Theorem C5_kl_divergence
    (chi2_sf : R -> Z -> R) (self : Monitor.DriftMonitor) (g : Monitor.rng)
    (current : list Z) (reference_predictions : option (list Z)) :
  let reference :=
    Notions.effective_reference self g reference_predictions in
  Monitor.kl_loop (Notions.distribution reference)
                  (Notions.distribution current)
    = Notions.kl_sum reference current /\
  (forall i : Z,
      let p := Monitor.get (Notions.distribution reference) i 1e-10%R in
      let q := Monitor.get (Notions.distribution current) i 1e-10%R in
      p = Notions.class_prob reference i /\
      q = Notions.class_prob current i /\
      (0 < p)%R /\ (0 < q)%R /\ (0 < p / q)%R) /\
  (forall r : Monitor.PredictionDrift,
      Monitor.monitor_prediction_drift chi2_sf self g current
        reference_predictions = Ok r ->
      Monitor.kl_divergence r = Notions.kl_sum reference current).
Proof.
  intros reference. split; [|split].
  - apply kl_loop_distribution.
  - intros i p q. subst p q. rewrite !get_distribution_floor.
    pose proof (class_prob_pos reference i) as Hp.
    pose proof (class_prob_pos current i) as Hq.
    repeat split; try assumption.
    apply Rdiv_lt_0_compat; assumption.
  - intros r. rewrite monitor_prediction_drift_eq. cbv zeta.
    fold reference.
    destruct (Monitor.chisquare chi2_sf _ _) as [chi2|e]; simpl;
      [|discriminate].
    intros [= <-]. simpl. apply kl_loop_distribution.
Qed.

(** C5 at the current predictions 0, 1, 1 against the reference
    predictions 0, 0, 1. *)
Lemma C5_witness :
  exists r : Monitor.PredictionDrift,
    Monitor.monitor_prediction_drift (fun _ _ => 1%R)
      (Monitor.mk_drift_monitor []) (fun _ => 0%nat)
      [0; 1; 1]%Z (Some [0; 0; 1]%Z) = Ok r /\
    Monitor.kl_divergence r = Notions.kl_sum [0; 0; 1]%Z [0; 1; 1]%Z.
Proof.
  pose proof (monitor_prediction_drift_ok (fun _ _ => 1%R)
                (Monitor.mk_drift_monitor []) (fun _ => 0%nat)
                [0; 1; 1]%Z (Some [0; 0; 1]%Z) eq_refl) as Hrun.
  cbv zeta in Hrun. eexists. split; [exact Hrun|].
  apply (C5_kl_divergence (fun _ _ => 1%R)
           (Monitor.mk_drift_monitor []) (fun _ => 0%nat)
           [0; 1; 1]%Z (Some [0; 0; 1]%Z)).
  exact Hrun.
Defined.

(** C9.  For every prediction sample [d], the analysis with [d] as both
    the current and the reference predictions returns a result whose
    [kl_divergence] is 0: every term is [p * log (p / p) = p * log 1]. *)
Theorem C9_kl_divergence_identical
    (chi2_sf : R -> Z -> R) (self : Monitor.DriftMonitor) (g : Monitor.rng)
    (d : list Z) :
  exists r : Monitor.PredictionDrift,
    Monitor.monitor_prediction_drift chi2_sf self g d (Some d) = Ok r /\
    Monitor.kl_divergence r = 0%R.
Proof.
  rewrite monitor_prediction_drift_eq. cbv zeta. simpl Notions.effective_reference.
  rewrite chisquare_ok by reflexivity. simpl bind.
  eexists. split; [reflexivity|]. simpl Monitor.kl_divergence.
  rewrite kl_loop_distribution. unfold Notions.kl_sum.
  assert (Hterm : forall i,
             (Notions.class_prob d i
              * ln (Notions.class_prob d i / Notions.class_prob d i) = 0)%R).
  { intros i. pose proof (class_prob_pos d i) as Hp.
    replace (Notions.class_prob d i / Notions.class_prob d i)%R with 1%R
      by (field; lra).
    rewrite ln_1. ring. }
  rewrite !Hterm. ring.
Qed.



(** ** The chi-square test of the prediction monitor *)

Section ChiSquareFacts.

Import Monitor Notions.

Variable chi2_sf : R -> Z -> R.

(** The statistic pairs the entries of the two distributions position by
    position. *)
Lemma pearson_values (dc dr : series) :
  pearson (values dc) (values dr) =
    fold_right Rplus 0%R
      (map (fun cr => ((snd (fst cr) - snd (snd cr)) ^ 2 / snd (snd cr))%R)
           (combine dc dr)).
Proof.
  unfold pearson, values. revert dr.
  induction dc as [|c dc IH]; intros [|e dr]; simpl; try reflexivity.
  now rewrite IH.
Qed.

(** The drift flag is the comparison of the p-value with 0.05. *)
Lemma drift_detected_iff (self : DriftMonitor) (g : rng)
    (current : list Z) (reference_predictions : option (list Z))
    (r : PredictionDrift) :
  monitor_prediction_drift chi2_sf self g current reference_predictions
    = Ok r ->
  (drift_detected r = true <-> (p_value r < 0.05)%R).
Proof.
  rewrite monitor_prediction_drift_eq. cbv zeta.
  destruct (chisquare chi2_sf _ _) as [chi2|e]; simpl; [|discriminate].
  intros [= <-]. simpl.
  destruct (Rlt_dec (snd chi2) 0.05); split; intros; auto; discriminate.
Qed.

End ChiSquareFacts.

(** C10, as stated, fails: with no current prediction against the
    reference predictions 0, 0 the inputs observe zero and one distinct
    labels, and the monitor returns a result; numpy stretches the
    one-entry reference vector to the empty current vector and the test
    runs on empty arrays. *)
Lemma C10_empty_against_one_label :
  length (nodup Z.eq_dec ([] : list Z))
    <> length (nodup Z.eq_dec [0; 0]%Z) /\
  exists r : Monitor.PredictionDrift,
    Monitor.monitor_prediction_drift (fun _ _ => 1%R)
      (Monitor.mk_drift_monitor []) (fun _ => 0%nat)
      [] (Some [0; 0]%Z) = Ok r /\
    Monitor.chi2_statistic r = 0%R.
Proof.
  split; [discriminate|].
  eexists. split.
  - apply (monitor_prediction_drift_degenerate (fun _ _ => 1%R)
             (Monitor.mk_drift_monitor []) (fun _ => 0%nat)
             [] (Some [0; 0]%Z)).
    left. split; reflexivity.
  - reflexivity.
Qed.

(** C10, amended.  The chi-square test aligns the two probability
    vectors by position in the sorted label order, not by class.  The
    monitor returns a result exactly when both prediction inputs observe
    the same number of distinct labels, or when one input is empty and
    the other observes a single label; on every other pair of inputs it
    raises [ValueError].  With the same number of labels on both sides
    the statistic sums over the position-wise pairs of the two
    distributions, and the paired entries carry the same class at every
    position exactly when both inputs observe the same label set; in the
    degenerate case the statistic is the empty sum 0. *)
Theorem C10_positional_alignment
    (chi2_sf : R -> Z -> R) (self : Monitor.DriftMonitor) (g : Monitor.rng)
    (current : list Z) (reference_predictions : option (list Z)) :
  let reference :=
    Notions.effective_reference self g reference_predictions in
  let run :=
    Monitor.monitor_prediction_drift chi2_sf self g current
      reference_predictions in
  let n_current := length (nodup Z.eq_dec current) in
  let n_reference := length (nodup Z.eq_dec reference) in
  ((exists r, run = Ok r) <->
   n_current = n_reference \/
   Notions.degenerate_lengths n_current n_reference) /\
  (n_current <> n_reference ->
   ~ Notions.degenerate_lengths n_current n_reference ->
   run = Raise ValueError) /\
  (forall r : Monitor.PredictionDrift,
      run = Ok r -> n_current = n_reference ->
      Monitor.chi2_statistic r =
        fold_right Rplus 0%R
          (map (fun cr =>
                  ((snd (fst cr) - snd (snd cr)) ^ 2 / snd (snd cr))%R)
               (combine (Notions.distribution current)
                        (Notions.distribution reference))) /\
      (Forall (fun ab => fst ab = snd ab)
              (Notions.paired_labels current reference) <->
       (forall z : Z, In z current <-> In z reference))) /\
  (forall r : Monitor.PredictionDrift,
      run = Ok r -> n_current <> n_reference ->
      Monitor.chi2_statistic r = 0%R).
Proof.
  intros reference run n_current n_reference.
  split; [|split; [|split] ].
  - split.
    + intros [r Hr].
      destruct (monitor_prediction_drift_cases chi2_sf self g current
                  reference_predictions r Hr) as [ [E _]|[Hdeg _] ];
        [left; exact E | right; exact Hdeg].
    + intros [E|Hdeg]; eexists.
      * apply (monitor_prediction_drift_ok chi2_sf self g current
                 reference_predictions E).
      * apply (monitor_prediction_drift_degenerate chi2_sf self g current
                 reference_predictions Hdeg).
  - apply monitor_prediction_drift_raise.
  - intros r Hr E. split.
    + unfold run in Hr.
      rewrite (monitor_prediction_drift_ok chi2_sf self g current
                 reference_predictions E) in Hr.
      cbv zeta in Hr. injection Hr as <-. simpl.
      apply pearson_values.
    + unfold Notions.paired_labels.
      rewrite combine_diag_eq by (now rewrite !length_observed_labels).
      apply observed_labels_eq_iff.
  - intros r Hr NE.
    destruct (monitor_prediction_drift_cases chi2_sf self g current
                reference_predictions r Hr) as [ [E _]|[_ H0] ];
      [contradiction | exact H0].
Qed.

(** C10 at the current predictions 0, 1 against the reference
    predictions 1, 2: two labels on each side, so the monitor returns a
    result, and the test pairs class 0 with class 1 and class 1 with
    class 2. *)
Lemma C10_witness :
  exists r : Monitor.PredictionDrift,
    Monitor.monitor_prediction_drift (fun _ _ => 1%R)
      (Monitor.mk_drift_monitor []) (fun _ => 0%nat)
      [0; 1]%Z (Some [1; 2]%Z) = Ok r /\
    Notions.paired_labels [0; 1]%Z [1; 2]%Z = [(0, 1); (1, 2)]%Z /\
    ~ Forall (fun ab : Z * Z => fst ab = snd ab)
             (Notions.paired_labels [0; 1]%Z [1; 2]%Z).
Proof.
  destruct (C10_positional_alignment (fun _ _ => 1%R)
              (Monitor.mk_drift_monitor []) (fun _ => 0%nat)
              [0; 1]%Z (Some [1; 2]%Z)) as ([_ Hex] & _ & Hpairs & _).
  destruct (Hex (or_introl eq_refl)) as [r Hr].
  exists r. split; [exact Hr|]. split; [reflexivity|].
  intros HF. destruct (Hpairs r Hr eq_refl) as [_ [Hsame _] ].
  destruct (Hsame HF 0%Z) as [H _].
  destruct (H (or_introl eq_refl)) as [H1|[H2|[] ] ]; discriminate.
Defined.

(** One label against two: the test raises. *)
Example monitor_prediction_drift_shape_mismatch (chi2_sf : R -> Z -> R) :
  Monitor.monitor_prediction_drift chi2_sf
    (Monitor.mk_drift_monitor []) (fun _ => 0%nat)
    [0; 0]%Z (Some [0; 1]%Z) = Raise ValueError.
Proof.
  apply monitor_prediction_drift_raise.
  - discriminate.
  - unfold Notions.degenerate_lengths. simpl. lia.
Qed.

Section ScaledStatistic.

Import Monitor Notions.

(** The statistic the monitor returns, times the number of current
    predictions, is the count-based goodness-of-fit statistic. *)
Lemma chi2_statistic_scaled (chi2_sf : R -> Z -> R) (self : DriftMonitor)
    (g : rng) (current : list Z) (reference_predictions : option (list Z))
    (r : PredictionDrift) :
  current <> [] ->
  monitor_prediction_drift chi2_sf self g current reference_predictions
    = Ok r ->
  goodness_of_fit_on_counts current
    (effective_reference self g reference_predictions)
  = (INR (length current) * chi2_statistic r)%R.
Proof.
  intros Hne Hr.
  destruct (monitor_prediction_drift_cases chi2_sf self g current
              reference_predictions r Hr) as [ [_ ->]|[Hdeg ->] ].
  - now apply pearson_on_proportions.
  - destruct Hdeg as [ [H0 _]|[_ H0] ].
    + apply nodup_empty in H0. contradiction.
    + apply nodup_empty in H0.
      unfold goodness_of_fit_on_counts, expected_counts. rewrite H0.
      change (values (distribution [])) with (@nil R).
      unfold pearson. cbn [map]. rewrite combine_nil. simpl. ring.
Qed.

End ScaledStatistic.


(** C6 at the current predictions 0, 0, 0, 1, 2 against the reference
    predictions 0, 1, 2.  The monitor hands the chi-square test the
    normalised frequencies of both sides: its statistic is 8/25, whereas
    the goodness-of-fit statistic of the observed current counts 3, 1, 1
    against the expected counts 5/3, 5/3, 5/3 is 8/5, five times as
    much. *)
Theorem C6_chi2_statistic_on_proportions
    (chi2_sf : R -> Z -> R) (self : Monitor.DriftMonitor) (g : Monitor.rng) :
  exists r : Monitor.PredictionDrift,
    Monitor.monitor_prediction_drift chi2_sf self g
      [0; 0; 0; 1; 2]%Z (Some [0; 1; 2]%Z) = Ok r /\
    Monitor.chi2_statistic r = (8 / 25)%R /\
    Notions.goodness_of_fit_on_counts [0; 0; 0; 1; 2]%Z [0; 1; 2]%Z
      = (8 / 5)%R /\
    Monitor.chi2_statistic r
      <> Notions.goodness_of_fit_on_counts [0; 0; 0; 1; 2]%Z [0; 1; 2]%Z.
Proof.
  assert (Hstat :
    Notions.pearson
      (Monitor.values (Notions.distribution [0; 0; 0; 1; 2]%Z))
      (Monitor.values (Notions.distribution [0; 1; 2]%Z)) = (8 / 25)%R).
  { unfold Notions.pearson, Monitor.values, Notions.distribution,
      Monitor.value_counts_normalize. simpl. field. }
  assert (Hgof :
    Notions.goodness_of_fit_on_counts [0; 0; 0; 1; 2]%Z [0; 1; 2]%Z
    = (8 / 5)%R).
  { rewrite pearson_on_proportions by discriminate. rewrite Hstat.
    simpl. field. }
  pose proof (monitor_prediction_drift_ok chi2_sf self g
                [0; 0; 0; 1; 2]%Z (Some [0; 1; 2]%Z) eq_refl) as Hrun.
  cbv zeta in Hrun. cbn [Notions.effective_reference] in Hrun.
  eexists. split; [exact Hrun|]. cbn [Monitor.chi2_statistic].
  rewrite Hstat, Hgof. repeat split. lra.
Qed.

(** ** Two runs on identical inputs *)

(** C3, as stated, fails.  Two summaries of identical inputs, taken one
    second apart, differ; and two prediction-drift analyses of identical
    inputs without reference predictions differ when the random generator
    draws label 0 in one run and label 1 in the other. *)
Lemma C3_two_runs_differ :
  Monitor.generate_monitoring_summary "2024-05-01T10:00:00"
    (Monitor.mk_data_drift_results true 0.75 3)
    (Monitor.mk_test_results 10 9 0.9) None
  <> Monitor.generate_monitoring_summary "2024-05-01T10:00:01"
       (Monitor.mk_data_drift_results true 0.75 3)
       (Monitor.mk_test_results 10 9 0.9) None /\
  Monitor.monitor_prediction_drift (fun _ _ => 1%R)
    (Monitor.mk_drift_monitor [[]]) (fun _ => 0%nat) [0]%Z None
  <> Monitor.monitor_prediction_drift (fun _ _ => 1%R)
       (Monitor.mk_drift_monitor [[]]) (fun _ => 1%nat) [0]%Z None.
Proof.
  split.
  - intros H. apply (f_equal Monitor.monitoring_timestamp) in H.
    discriminate.
  - rewrite (monitor_prediction_drift_ok (fun _ _ => 1%R)
               (Monitor.mk_drift_monitor [[]]) (fun _ => 0%nat)
               [0]%Z None eq_refl).
    rewrite (monitor_prediction_drift_ok (fun _ _ => 1%R)
               (Monitor.mk_drift_monitor [[]]) (fun _ => 1%nat)
               [0]%Z None eq_refl).
    cbv zeta. intros H.
    apply (f_equal (fun x => match x with
                             | Ok r => map fst (Monitor.reference_distribution r)
                             | Raise _ => []
                             end)) in H.
    discriminate H.
Qed.

(** C3, amended.  The summary depends on the clock only through its
    [monitoring_timestamp], which is the time of the call: two summaries
    of identical inputs agree on every other entry.  With reference
    predictions supplied, the prediction-drift analysis does not depend
    on the random generator.  (The evaluation gate reads neither.) *)
Theorem C3_determinism_up_to_timestamp :
  (forall (now1 now2 : string) (d : Monitor.DataDriftResults)
          (t : Monitor.TestResults) (p : option Monitor.PredictionDrift),
      Notions.without_timestamp
        (Monitor.generate_monitoring_summary now1 d t p)
      = Notions.without_timestamp
          (Monitor.generate_monitoring_summary now2 d t p)) /\
  (forall (now : string) (d : Monitor.DataDriftResults)
          (t : Monitor.TestResults) (p : option Monitor.PredictionDrift),
      Monitor.monitoring_timestamp
        (Monitor.generate_monitoring_summary now d t p) = now) /\
  (forall (chi2_sf : R -> Z -> R) (self : Monitor.DriftMonitor)
          (g1 g2 : Monitor.rng) (current reference : list Z),
      Monitor.monitor_prediction_drift chi2_sf self g1 current
        (Some reference)
      = Monitor.monitor_prediction_drift chi2_sf self g2 current
          (Some reference)).
Proof.
  split; [|split]; reflexivity.
Qed.


(** * Further properties *)

(** ** More order facts on binary64 values *)

Section FloatOrderMore.

Lemma SFcompare_lt_le_trans (a b c : spec_float) :
  SFltb a b = true -> SFleb b c = true -> SFltb a c = true.
Proof.
  unfold SFleb, SFltb.
  destruct a as [sa|sa| |sa ma ea], b as [sb|sb| |sb mb eb],
    c as [sc|sc| |sc mc ec]; simpl; try discriminate;
    try (destruct sa; try destruct sb; try destruct sc;
         try discriminate; try reflexivity; fail).
  change (Pos.compare_cont Eq ma mb) with (Pos.compare ma mb).
  change (Pos.compare_cont Eq mb mc) with (Pos.compare mb mc).
  change (Pos.compare_cont Eq ma mc) with (Pos.compare ma mc).
  destruct sa, sb, sc; try discriminate; try reflexivity;
    destruct (Z.compare_spec ea eb), (Z.compare_spec eb ec),
      (Z.compare_spec ea ec); try discriminate; try reflexivity; try lia;
    destruct (Pos.compare_spec ma mb), (Pos.compare_spec mb mc),
      (Pos.compare_spec ma mc); simpl; try discriminate; try reflexivity;
      try lia.
Qed.

Lemma SFcompare_le_le_trans (a b c : spec_float) :
  SFleb a b = true -> SFleb b c = true -> SFleb a c = true.
Proof.
  unfold SFleb.
  destruct a as [sa|sa| |sa ma ea], b as [sb|sb| |sb mb eb],
    c as [sc|sc| |sc mc ec]; simpl; try discriminate;
    try (destruct sa; try destruct sb; try destruct sc;
         try discriminate; try reflexivity; fail).
  change (Pos.compare_cont Eq ma mb) with (Pos.compare ma mb).
  change (Pos.compare_cont Eq mb mc) with (Pos.compare mb mc).
  change (Pos.compare_cont Eq ma mc) with (Pos.compare ma mc).
  destruct sa, sb, sc; try discriminate; try reflexivity;
    destruct (Z.compare_spec ea eb), (Z.compare_spec eb ec),
      (Z.compare_spec ea ec); try discriminate; try reflexivity; try lia;
    destruct (Pos.compare_spec ma mb), (Pos.compare_spec mb mc),
      (Pos.compare_spec ma mc); simpl; try discriminate; try reflexivity;
      try lia.
Qed.

Lemma float_ge_trans (x y z : float) :
  PyFloat.ge x y = true -> PyFloat.ge y z = true -> PyFloat.ge x z = true.
Proof.
  unfold PyFloat.ge. rewrite !leb_spec. intros Hyx Hzy.
  exact (SFcompare_le_le_trans _ _ _ Hzy Hyx).
Qed.

Lemma float_gt_le_trans (x y c : float) :
  PyFloat.gt x c = true -> PyFloat.le x y = true -> PyFloat.gt y c = true.
Proof.
  unfold PyFloat.gt, PyFloat.le. rewrite leb_spec, !ltb_spec.
  apply SFcompare_lt_le_trans.
Qed.

Lemma float_gt_gt_trans (x b c : float) :
  PyFloat.gt x b = true -> PyFloat.gt b c = true -> PyFloat.gt x c = true.
Proof.
  unfold PyFloat.gt. rewrite !ltb_spec. intros Hbx Hcb.
  apply (SFcompare_le_lt_trans _ (Prim2SF b)); [|assumption].
  unfold SFltb in Hcb. unfold SFleb.
  destruct (SFcompare (Prim2SF c) (Prim2SF b)) as [[]|];
    try discriminate; reflexivity.
Qed.

(** A value that differs from itself decodes to NaN. *)
Lemma is_nan_decode (x : float) :
  Scale.is_nan x = true -> Prim2SF x = S754_nan.
Proof.
  unfold Scale.is_nan, PyFloat.eq. rewrite FloatAxioms.eqb_spec.
  unfold SFeqb. destruct (Prim2SF x) as [s|s| |s m e]; simpl;
    try reflexivity.
  - discriminate.
  - destruct s; discriminate.
  - rewrite Z.compare_refl.
    change (Pos.compare_cont Eq m m) with (Pos.compare m m).
    rewrite Pos.compare_refl. destruct s; discriminate.
Qed.

(** No comparison with a NaN holds. *)
Lemma nan_ge_false (x t : float) :
  Scale.is_nan x = true -> PyFloat.ge x t = false /\ PyFloat.ge t x = false.
Proof.
  intros H. apply is_nan_decode in H.
  unfold PyFloat.ge. rewrite !leb_spec, H. unfold SFleb.
  split; [|reflexivity].
  destruct (Prim2SF t); reflexivity.
Qed.

End FloatOrderMore.

(** ** The evaluation gate: NaN metrics and the order of thresholds *)

(** X1.  A metric that is NaN never passes: if the accuracy or the F1
    score of the metrics dict is NaN, the gate returns a result whose
    [all_checks_passed] is false, whatever the thresholds. *)
Theorem X1_nan_metric_fails
    (m : gmap string float) (acc f1 ta tf : float) :
  m !! "accuracy" = Some acc ->
  m !! "f1_score" = Some f1 ->
  Scale.is_nan acc = true \/ Scale.is_nan f1 = true ->
  exists r,
    Gate.check_model_thresholds m ta tf = Ok r /\
    Gate.all_checks_passed r = false.
Proof.
  intros Ha Hf Hnan. eexists. split.
  - apply (check_model_thresholds_ok m acc f1 ta tf Ha Hf).
  - simpl. destruct Hnan as [H|H].
    + destruct (nan_ge_false acc ta H) as [-> _]. reflexivity.
    + destruct (nan_ge_false f1 tf H) as [-> _]. apply andb_false_r.
Qed.

(** X1 at an accuracy of NaN against thresholds 0. *)
Lemma X1_witness :
  exists r,
    Gate.check_model_thresholds
      (<["accuracy" := nan]> (<["f1_score" := 0.9%float]> ∅))
      0%float 0%float = Ok r /\
    Gate.all_checks_passed r = false.
Proof.
  apply (X1_nan_metric_fails
           (<["accuracy" := nan]> (<["f1_score" := 0.9%float]> ∅))
           nan 0.9%float 0%float 0%float);
    [reflexivity | reflexivity | left; reflexivity].
Defined.

(** X2.  The gate is monotone: a metrics dict that passes at thresholds
    [ta] and [tf] passes at all thresholds [ta' <= ta] and [tf' <= tf],
    and so does every dict whose two metrics are at least as large. *)
Theorem X2_gate_monotone
    (m m' : gmap string float) (acc f1 acc' f1' ta tf ta' tf' : float)
    (r : Gate.checks) :
  m !! "accuracy" = Some acc -> m !! "f1_score" = Some f1 ->
  m' !! "accuracy" = Some acc' -> m' !! "f1_score" = Some f1' ->
  Gate.check_model_thresholds m ta tf = Ok r ->
  Gate.all_checks_passed r = true ->
  PyFloat.ge acc' acc = true -> PyFloat.ge f1' f1 = true ->
  PyFloat.le ta' ta = true -> PyFloat.le tf' tf = true ->
  exists r',
    Gate.check_model_thresholds m' ta' tf' = Ok r' /\
    Gate.all_checks_passed r' = true.
Proof.
  intros Ha Hf Ha' Hf' Hr Hpass Hacc Hf1 Hta Htf.
  rewrite (check_model_thresholds_ok m acc f1 ta tf Ha Hf) in Hr.
  injection Hr as <-. simpl in Hpass.
  apply andb_true_iff in Hpass. destruct Hpass as [Hpa Hpf].
  eexists. split.
  - apply (check_model_thresholds_ok m' acc' f1' ta' tf' Ha' Hf').
  - simpl. apply andb_true_iff. split.
    + apply (float_ge_trans acc' acc ta' Hacc).
      apply (float_ge_trans acc ta ta' Hpa). exact Hta.
    + apply (float_ge_trans f1' f1 tf' Hf1).
      apply (float_ge_trans f1 tf tf' Hpf). exact Htf.
Qed.

(** X2 from metrics 0.92 and 0.90 at thresholds 0.85 to metrics 0.95 and
    0.90 at thresholds 0.8. *)
Lemma X2_witness :
  exists r',
    Gate.check_model_thresholds
      (<["accuracy" := 0.95%float]> (<["f1_score" := 0.90%float]> ∅))
      0.8%float 0.8%float = Ok r' /\
    Gate.all_checks_passed r' = true.
Proof.
  apply (X2_gate_monotone
           (<["accuracy" := 0.92%float]> (<["f1_score" := 0.90%float]> ∅))
           (<["accuracy" := 0.95%float]> (<["f1_score" := 0.90%float]> ∅))
           0.92%float 0.90%float 0.95%float 0.90%float
           0.85%float 0.85%float 0.8%float 0.8%float
           (Gate.mk_checks true true 0.92%float 0.90%float
              0.85%float 0.85%float true));
    reflexivity.
Defined.

(** X3.  The deployment decisions of the repository agree: on a metrics
    dict holding an accuracy and an F1 score, [main] of evaluate_model.py
    returns a result, and the pipeline component decides "deploy" (and
    logs 1, and the registry entry is "production-ready" and deployed)
    exactly when that result's [deploy_model] is true, that is, when
    both metrics reach their thresholds. *)
Theorem X3_deploy_decisions_agree
    (m : gmap string float) (acc f1 ta tf : float) :
  m !! "accuracy" = Some acc ->
  m !! "f1_score" = Some f1 ->
  exists fr,
    Deploy.main m ta tf = Ok fr /\
    Deploy.deploy_model fr = PyFloat.ge acc ta && PyFloat.ge f1 tf /\
    (Deploy.deploy_decision acc f1 ta tf = "deploy"%string <->
     Deploy.deploy_model fr = true) /\
    (Deploy.deploy_decision acc f1 ta tf = "no-deploy"%string <->
     Deploy.deploy_model fr = false) /\
    (Deploy.deployment_decision_metric acc f1 ta tf = 1%Z <->
     Deploy.deploy_model fr = true) /\
    (Deploy.registry_status (Deploy.deploy_decision acc f1 ta tf)
       = "production-ready"%string <-> Deploy.deploy_model fr = true) /\
    Deploy.registry_deployed (Deploy.deploy_decision acc f1 ta tf)
      = Deploy.deploy_model fr.
Proof.
  intros Ha Hf. unfold Deploy.main.
  rewrite (check_model_thresholds_ok m acc f1 ta tf Ha Hf). simpl bind.
  eexists. split; [reflexivity|]. simpl Deploy.deploy_model.
  unfold Deploy.deploy_decision, Deploy.deployment_decision_metric.
  destruct (PyFloat.ge acc ta && PyFloat.ge f1 tf); simpl;
    repeat split; intros; try reflexivity; discriminate.
Qed.

(** X3 at metrics 0.92 and 0.90 against thresholds 0.85. *)
Lemma X3_witness :
  exists fr,
    Deploy.main
      (<["accuracy" := 0.92%float]> (<["f1_score" := 0.90%float]> ∅))
      0.85%float 0.85%float = Ok fr /\
    Deploy.deploy_model fr = true /\
    Deploy.deploy_decision 0.92 0.90 0.85 0.85 = "deploy"%string.
Proof.
  destruct (X3_deploy_decisions_agree
              (<["accuracy" := 0.92%float]> (<["f1_score" := 0.90%float]> ∅))
              0.92%float 0.90%float 0.85%float 0.85%float)
    as (fr & Hfr & Hd & Hiff & _); [reflexivity | reflexivity |].
  exists fr. split; [exact Hfr|]. split; [rewrite Hd; reflexivity|].
  apply Hiff. rewrite Hd. reflexivity.
Defined.

(** ** The monitoring summary: status, recommendations and severity *)

(** The status in terms of the inputs. *)
Lemma overall_status_alert
    (now : string) (d : Monitor.DataDriftResults) (t : Monitor.TestResults)
    (p : option Monitor.PredictionDrift) :
  Monitor.overall_status (Monitor.generate_monitoring_summary now d t p)
    = "alert"%string <->
  Monitor.dataset_drift_detected d = true /\
  PyFloat.gt (Monitor.dataset_drift_score d) 0.5 = true.
Proof.
  rewrite overall_status_eq, drift_severity_eq.
  destruct (Monitor.dataset_drift_detected d); simpl.
  - destruct (PyFloat.gt (Monitor.dataset_drift_score d) 0.7) eqn:H7.
    + rewrite (float_gt_gt_trans _ 0.7 0.5 H7 eq_refl). simpl.
      split; auto.
    + destruct (PyFloat.gt (Monitor.dataset_drift_score d) 0.5); simpl;
        split; auto; try discriminate.
      intros [_ H]. discriminate.
  - split; [discriminate | intros [H _]; discriminate].
Qed.

(** X4.  The overall status is "alert" exactly when dataset drift was
    detected and the drift score is above 0.5; in particular a detected
    drift whose score is NaN leaves the status "ok". *)
Theorem X4_alert_iff_detected_above_half
    (now : string) (d : Monitor.DataDriftResults) (t : Monitor.TestResults)
    (p : option Monitor.PredictionDrift) :
  Monitor.overall_status (Monitor.generate_monitoring_summary now d t p)
    = "alert"%string <->
  Monitor.dataset_drift_detected d = true /\
  PyFloat.gt (Monitor.dataset_drift_score d) 0.5 = true.
Proof. apply overall_status_alert. Qed.

(** X5.  The retrain recommendation is present exactly when the overall
    status is "alert". *)
Theorem X5_retrain_iff_alert
    (now : string) (d : Monitor.DataDriftResults) (t : Monitor.TestResults)
    (p : option Monitor.PredictionDrift) :
  let s := Monitor.generate_monitoring_summary now d t p in
  In Monitor.rec_retrain (Monitor.recommendations s) <->
  Monitor.overall_status s = "alert"%string.
Proof.
  intros s. subst s.
  rewrite recommendations_eq, overall_status_eq, !append_if_app.
  destruct (py_in _ _); simpl.
  - split; [reflexivity | intros _; left; reflexivity].
  - split; [|discriminate].
    rewrite !in_app_iff.
    destruct (2 <? Monitor.n_features_drifted d)%Z,
      (PyFloat.lt (Monitor.success_rate t) 0.8),
      (Monitor.supplied_and_detected p); simpl;
      intuition discriminate.
Qed.

(** X6.  The recommendations are a sublist of the four possible entries
    in their fixed order: no entry is repeated, none is out of order, and
    there are at most four. *)
Theorem X6_recommendations_sublist
    (now : string) (d : Monitor.DataDriftResults) (t : Monitor.TestResults)
    (p : option Monitor.PredictionDrift) :
  let recs :=
    Monitor.recommendations (Monitor.generate_monitoring_summary now d t p) in
  sublist recs Scale.all_recommendations /\
  List.NoDup recs /\
  (length recs <= 4)%nat.
Proof.
  intros recs.
  assert (Hsub : sublist recs Scale.all_recommendations).
  { subst recs. rewrite recommendations_eq, !append_if_app.
    unfold Scale.all_recommendations.
    destruct (py_in _ _), (2 <? Monitor.n_features_drifted d)%Z,
      (PyFloat.lt (Monitor.success_rate t) 0.8),
      (Monitor.supplied_and_detected p); simpl;
      repeat (first [apply sublist_nil | apply sublist_skip
                    | apply sublist_cons]). }
  split; [exact Hsub|]. split.
  - apply NoDup_ListNoDup.
    eapply sublist_NoDup; [|exact Hsub].
    apply NoDup_ListNoDup. unfold Scale.all_recommendations.
    repeat constructor; simpl; intuition discriminate.
  - apply sublist_length in Hsub. exact Hsub.
Qed.

(** X7.  The severity grows with the drift score: of two inputs with
    drift detected, the one with the larger (or equal) score has the
    larger (or equal) severity level. *)
Theorem X7_severity_monotone
    (now1 now2 : string) (d1 d2 : Monitor.DataDriftResults)
    (t1 t2 : Monitor.TestResults) (p1 p2 : option Monitor.PredictionDrift) :
  Monitor.dataset_drift_detected d1 = true ->
  Monitor.dataset_drift_detected d2 = true ->
  PyFloat.le (Monitor.dataset_drift_score d1)
             (Monitor.dataset_drift_score d2) = true ->
  (Scale.severity_rank
     (Monitor.drift_severity
        (Monitor.generate_monitoring_summary now1 d1 t1 p1))
   <= Scale.severity_rank
        (Monitor.drift_severity
           (Monitor.generate_monitoring_summary now2 d2 t2 p2)))%nat.
Proof.
  intros H1 H2 Hle. rewrite !drift_severity_eq, H1, H2.
  destruct (PyFloat.gt (Monitor.dataset_drift_score d1) 0.7) eqn:G17.
  - rewrite (float_gt_le_trans _ _ _ G17 Hle). reflexivity.
  - destruct (PyFloat.gt (Monitor.dataset_drift_score d1) 0.5) eqn:G15.
    + rewrite (float_gt_le_trans _ _ _ G15 Hle).
      destruct (PyFloat.gt (Monitor.dataset_drift_score d2) 0.7);
        vm_compute; lia.
    + destruct (PyFloat.gt (Monitor.dataset_drift_score d2) 0.7);
        [vm_compute; lia|].
      destruct (PyFloat.gt (Monitor.dataset_drift_score d2) 0.5);
        vm_compute; lia.
Qed.

(** X7 at the scores 0.6 and 0.75. *)
Lemma X7_witness :
  (Scale.severity_rank
     (Monitor.drift_severity
        (Monitor.generate_monitoring_summary "t"
           (Monitor.mk_data_drift_results true 0.6 1)
           (Monitor.mk_test_results 5 5 1) None))
   <= Scale.severity_rank
        (Monitor.drift_severity
           (Monitor.generate_monitoring_summary "t"
              (Monitor.mk_data_drift_results true 0.75 1)
              (Monitor.mk_test_results 5 5 1) None)))%nat.
Proof.
  apply X7_severity_monotone; reflexivity.
Defined.



(** X8.  Whenever the prediction monitor returns a result, its
    [current_distribution] and [reference_distribution] are the
    probability distributions of the two prediction columns: labels in
    strictly increasing order, exactly the observed ones, each with its
    relative frequency in (0, 1], adding up to 1 for a non-empty column. *)
Theorem X8_distributions_normalised
    (chi2_sf : R -> Z -> R) (self : Monitor.DriftMonitor) (g : Monitor.rng)
    (current : list Z) (reference_predictions : option (list Z))
    (r : Monitor.PredictionDrift) :
  Monitor.monitor_prediction_drift chi2_sf self g current
    reference_predictions = Ok r ->
  Scale.distribution_of current (Monitor.current_distribution r) /\
  Scale.distribution_of
    (Notions.effective_reference self g reference_predictions)
    (Monitor.reference_distribution r).
Proof.
  assert (Hdist : forall col,
             Scale.distribution_of col (Notions.distribution col)).
  { intros col. unfold Scale.distribution_of. repeat split.
    - apply observed_labels_increasing.
    - apply in_observed_labels.
    - apply in_observed_labels.
    - apply (in_distribution col k v H).
    - destruct (in_distribution col k v H) as [Hk ->].
      now apply freq_pos.
    - destruct (in_distribution col k v H) as [Hk ->].
      now apply freq_le_1.
    - apply distribution_sum. }
  rewrite monitor_prediction_drift_eq. cbv zeta.
  destruct (Monitor.chisquare chi2_sf _ _) as [chi2|e]; simpl;
    [|discriminate].
  intros [= <-]. simpl. split; apply Hdist.
Qed.

(** X8 at the current predictions 0, 1, 1 against the reference
    predictions 0, 0, 1. *)
Lemma X8_witness :
  exists r : Monitor.PredictionDrift,
    Monitor.monitor_prediction_drift (fun _ _ => 1%R)
      (Monitor.mk_drift_monitor []) (fun _ => 0%nat)
      [0; 1; 1]%Z (Some [0; 0; 1]%Z) = Ok r /\
    Scale.distribution_of [0; 1; 1]%Z (Monitor.current_distribution r).
Proof.
  pose proof (monitor_prediction_drift_ok (fun _ _ => 1%R)
                (Monitor.mk_drift_monitor []) (fun _ => 0%nat)
                [0; 1; 1]%Z (Some [0; 0; 1]%Z) eq_refl) as Hrun.
  cbv zeta in Hrun. eexists. split; [exact Hrun|].
  apply (X8_distributions_normalised (fun _ _ => 1%R)
           (Monitor.mk_drift_monitor []) (fun _ => 0%nat)
           [0; 1; 1]%Z (Some [0; 0; 1]%Z) _ Hrun).
Defined.

(** X9.  The chi-square statistic the monitor returns is never
    negative. *)
Theorem X9_chi2_statistic_nonneg
    (chi2_sf : R -> Z -> R) (self : Monitor.DriftMonitor) (g : Monitor.rng)
    (current : list Z) (reference_predictions : option (list Z))
    (r : Monitor.PredictionDrift) :
  Monitor.monitor_prediction_drift chi2_sf self g current
    reference_predictions = Ok r ->
  (0 <= Monitor.chi2_statistic r)%R.
Proof.
  intros Hr.
  destruct (monitor_prediction_drift_cases chi2_sf self g current
              reference_predictions r Hr) as [ [_ ->]|[_ ->] ].
  - apply (pearson_nonneg _ _ (values_distribution_pos _)).
  - lra.
Qed.

(** X9 at the current predictions 0, 1, 1 against the reference
    predictions 0, 0, 1. *)
Lemma X9_witness :
  exists r : Monitor.PredictionDrift,
    Monitor.monitor_prediction_drift (fun _ _ => 1%R)
      (Monitor.mk_drift_monitor []) (fun _ => 0%nat)
      [0; 1; 1]%Z (Some [0; 0; 1]%Z) = Ok r /\
    (0 <= Monitor.chi2_statistic r)%R.
Proof.
  pose proof (monitor_prediction_drift_ok (fun _ _ => 1%R)
                (Monitor.mk_drift_monitor []) (fun _ => 0%nat)
                [0; 1; 1]%Z (Some [0; 0; 1]%Z) eq_refl) as Hrun.
  cbv zeta in Hrun. eexists. split; [exact Hrun|].
  apply (X9_chi2_statistic_nonneg (fun _ _ => 1%R)
           (Monitor.mk_drift_monitor []) (fun _ => 0%nat)
           [0; 1; 1]%Z (Some [0; 0; 1]%Z) _ Hrun).
Defined.

(** X10.  With the same sample [d] as current and as reference
    predictions the monitor returns a result whose two distributions
    coincide and whose chi-square statistic is 0, so its p-value is the
    survival function at 0. *)
Theorem X10_identical_samples
    (chi2_sf : R -> Z -> R) (self : Monitor.DriftMonitor) (g : Monitor.rng)
    (d : list Z) :
  exists r : Monitor.PredictionDrift,
    Monitor.monitor_prediction_drift chi2_sf self g d (Some d) = Ok r /\
    Monitor.current_distribution r = Monitor.reference_distribution r /\
    Monitor.chi2_statistic r = 0%R /\
    Monitor.p_value r =
      chi2_sf 0%R (Z.of_nat (length (nodup Z.eq_dec d)) - 1)%Z.
Proof.
  pose proof (monitor_prediction_drift_ok chi2_sf self g d (Some d) eq_refl)
    as Hrun.
  cbv zeta in Hrun. cbn [Notions.effective_reference] in Hrun.
  rewrite (pearson_diag _ (values_distribution_pos d)) in Hrun.
  eexists. split; [exact Hrun|]. repeat split.
Qed.

(** X11.  The result depends on the relative frequencies only, not on
    the number of predictions: repeating every current prediction (or
    every reference prediction) a second time leaves the whole result,
    statistic and p-value included, unchanged. *)
Theorem X11_sample_size_is_ignored
    (chi2_sf : R -> Z -> R) (self : Monitor.DriftMonitor) (g : Monitor.rng)
    (current reference : list Z) :
  Monitor.monitor_prediction_drift chi2_sf self g (current ++ current)
    (Some reference)
  = Monitor.monitor_prediction_drift chi2_sf self g current (Some reference)
  /\
  Monitor.monitor_prediction_drift chi2_sf self g current
    (Some (reference ++ reference))
  = Monitor.monitor_prediction_drift chi2_sf self g current (Some reference).
Proof.
  rewrite !monitor_prediction_drift_eq. cbv zeta.
  cbn [Notions.effective_reference].
  rewrite !distribution_app_self. split; reflexivity.
Qed.


(** X12.  Without reference predictions the monitor compares against a
    random sample of the classes 0, 1 and 2, one draw per row of the
    reference data; current predictions with more than three distinct
    labels therefore always end in the [ValueError] of the chi-square
    test. *)
Theorem X12_absent_reference
    (chi2_sf : R -> Z -> R) (self : Monitor.DriftMonitor) (g : Monitor.rng)
    (current : list Z) :
  let reference := Notions.effective_reference self g None in
  length reference = length (Monitor.reference_data self) /\
  (forall z : Z, In z reference -> z = 0%Z \/ z = 1%Z \/ z = 2%Z) /\
  ((3 < length (nodup Z.eq_dec current))%nat ->
   Monitor.monitor_prediction_drift chi2_sf self g current None
     = Raise ValueError).
Proof.
  intros reference.
  assert (Hlab : forall z, In z reference -> z = 0%Z \/ z = 1%Z \/ z = 2%Z).
  { intros z Hz. unfold reference, Notions.effective_reference,
      Monitor.np_random_choice in Hz.
    apply in_map_iff in Hz. destruct Hz as (i & <- & _).
    cbn [length].
    pose proof (Nat.mod_upper_bound (g i) 3 ltac:(lia)) as Hb.
    destruct (g i mod 3)%nat as [|[|[|n] ] ]; simpl; auto. lia. }
  split; [|split].
  - unfold reference, Notions.effective_reference, Monitor.np_random_choice.
    now rewrite length_map, length_seq.
  - exact Hlab.
  - intros Hcur.
    assert (length (nodup Z.eq_dec reference) <= 3)%nat;
      [|apply monitor_prediction_drift_raise; fold reference;
        unfold Notions.degenerate_lengths; lia].
    change 3%nat with (length [0; 1; 2]%Z).
    apply NoDup_incl_length; [apply NoDup_nodup|].
    intros z Hz. apply nodup_In in Hz.
    destruct (Hlab z Hz) as [-> | [-> | ->] ]; simpl; auto.
Qed.

(** X12 at the current predictions 0, 1, 2, 3. *)
Lemma X12_witness :
  Monitor.monitor_prediction_drift (fun _ _ => 1%R)
    (Monitor.mk_drift_monitor [[]; []]) (fun i => i) [0; 1; 2; 3]%Z None
  = Raise ValueError.
Proof.
  apply (X12_absent_reference (fun _ _ => 1%R)
           (Monitor.mk_drift_monitor [[]; []]) (fun i => i) [0; 1; 2; 3]%Z).
  simpl. lia.
Defined.

Section BalancedReference.

Import Monitor Notions.

Lemma balanced_distribution (reference : list Z) :
  Scale.balanced reference ->
  values (distribution reference) = [(1 / 3)%R; (1 / 3)%R; (1 / 3)%R].
Proof.
  intros (n & Hn & H0 & H1 & H2 & Hlen & Honly).
  assert (Hin : forall z, In z reference <-> In z [0; 1; 2]%Z).
  { intros z. split.
    - intros Hz. destruct (Honly z Hz) as [-> | [-> | ->] ]; simpl; auto.
    - intros [<-|[<-|[<-|[] ] ] ];
        apply (count_occ_In Z.eq_dec); lia. }
  assert (Hn3 : (0 < INR n)%R) by (apply lt_0_INR; lia).
  rewrite (distribution_ext reference [0; 1; 2]%Z Hin).
  - unfold values, distribution, value_counts_normalize. simpl.
    repeat f_equal; field.
  - intros z. unfold freq. rewrite Hlen, mult_INR.
    destruct (Z.eq_dec z 0%Z) as [->|N0]; [rewrite H0; simpl; field; lra|].
    destruct (Z.eq_dec z 1%Z) as [->|N1]; [rewrite H1; simpl; field; lra|].
    destruct (Z.eq_dec z 2%Z) as [->|N2]; [rewrite H2; simpl; field; lra|].
    assert (Hz : count_occ Z.eq_dec reference z = 0%nat).
    { apply (count_occ_not_In Z.eq_dec). intros Hz.
      destruct (Honly z Hz) as [-> | [-> | ->] ]; contradiction. }
    assert (Hz' : count_occ Z.eq_dec [0; 1; 2]%Z z = 0%nat).
    { apply (count_occ_not_In Z.eq_dec). simpl. intuition congruence. }
    rewrite Hz, Hz'. simpl. unfold Rdiv. ring.
Qed.

End BalancedReference.

(** X13.  Against a balanced reference (the classes 0, 1 and 2 equally
    often) the statistic the monitor returns stays below 2, however many
    current predictions there are and however they are distributed. *)
Theorem X13_statistic_bounded_for_balanced_reference
    (chi2_sf : R -> Z -> R) (self : Monitor.DriftMonitor) (g : Monitor.rng)
    (current reference : list Z) (r : Monitor.PredictionDrift) :
  Scale.balanced reference ->
  Monitor.monitor_prediction_drift chi2_sf self g current (Some reference)
    = Ok r ->
  (Monitor.chi2_statistic r < 2)%R.
Proof.
  intros Hbal. pose proof (balanced_distribution reference Hbal) as Href.
  intros Hr.
  assert (Hnref : length (nodup Z.eq_dec reference) = 3%nat).
  { rewrite <- length_values_distribution, Href. reflexivity. }
  destruct (monitor_prediction_drift_cases chi2_sf self g current
              (Some reference) r Hr) as [ [Hlen ->]|[Hdeg _] ];
    cbn [Notions.effective_reference] in *;
    [|unfold Notions.degenerate_lengths in Hdeg; lia].
  rewrite Hnref, <- length_values_distribution in Hlen.
  rewrite Href.
  pose proof (values_distribution_pos current) as Hpos.
  assert (Hne : current <> []).
  { intros ->. discriminate Hlen. }
  pose proof (distribution_sum current Hne) as Hsum.
  destruct (Monitor.values (Notions.distribution current))
    as [|c1 [|c2 [|c3 [|c4 cs] ] ] ]; try discriminate Hlen.
  inversion Hpos as [|? ? P1 Hpos1]; subst.
  inversion Hpos1 as [|? ? P2 Hpos2]; subst.
  inversion Hpos2 as [|? ? P3 _]; subst.
  simpl in Hsum. unfold Notions.pearson. simpl.
  assert (Hsq : (c1 * c1 + c2 * c2 + c3 * c3 < 1)%R) by nra.
  replace (((c1 - 1 / 3) * ((c1 - 1 / 3) * 1) / (1 / 3) +
            ((c2 - 1 / 3) * ((c2 - 1 / 3) * 1) / (1 / 3) +
             ((c3 - 1 / 3) * ((c3 - 1 / 3) * 1) / (1 / 3) + 0))))%R
    with (3 * (c1 * c1 + c2 * c2 + c3 * c3) - 2 * (c1 + (c2 + (c3 + 0))) + 1)%R
    by field.
  lra.
Qed.

(** X13 at the current predictions 0, 0, 0, 1, 2 against the reference
    predictions 0, 1, 2. *)
Lemma X13_witness :
  exists r : Monitor.PredictionDrift,
    Monitor.monitor_prediction_drift (fun _ _ => 1%R)
      (Monitor.mk_drift_monitor []) (fun _ => 0%nat)
      [0; 0; 0; 1; 2]%Z (Some [0; 1; 2]%Z) = Ok r /\
    (Monitor.chi2_statistic r < 2)%R.
Proof.
  pose proof (monitor_prediction_drift_ok (fun _ _ => 1%R)
                (Monitor.mk_drift_monitor []) (fun _ => 0%nat)
                [0; 0; 0; 1; 2]%Z (Some [0; 1; 2]%Z) eq_refl) as Hrun.
  cbv zeta in Hrun. eexists. split; [exact Hrun|].
  apply (X13_statistic_bounded_for_balanced_reference (fun _ _ => 1%R)
           (Monitor.mk_drift_monitor []) (fun _ => 0%nat)
           [0; 0; 0; 1; 2]%Z [0; 1; 2]%Z).
  - exists 1%nat. repeat split; try reflexivity; try lia.
    simpl. intros z [<-|[<-|[<-|[] ] ] ]; auto.
  - exact Hrun.
Defined.

(** ** Drift detection: the per-feature table *)

Section DetectFacts.

Import Detect.

Lemma sum_ones {A : Type} (l : list A) :
  fold_right Z.add 0%Z (map (fun _ => 1%Z) l) = Z.of_nat (length l).
Proof.
  induction l as [|a l IH]; simpl fold_right; [reflexivity|].
  rewrite IH. simpl length. lia.
Qed.

Lemma length_filter_le {A : Type} (f : A -> bool) (l : list A) :
  (length (List.filter f l) <= length l)%nat.
Proof.
  induction l as [|a l IH]; simpl; [lia|].
  destruct (f a); simpl; lia.
Qed.

(** The decidable filter on a boolean test is the boolean filter. *)
Lemma filter_bool {A : Type} (f : A -> bool) (l : list A) :
  filter (fun a => f a = true) l = List.filter f l.
Proof.
  induction l as [|a l IH]; [reflexivity|].
  rewrite filter_cons, IH. simpl.
  destruct (decide (f a = true)) as [->|H]; [reflexivity|].
  destruct (f a); [contradiction | reflexivity].
Qed.

(** What [read_details] returns: the four entries of the column. *)
Lemma read_details_ok (details : gmap string value) (e : FeatureDrift) :
  read_details details = Ok e <->
  details !! "drift_detected"%string = Some (drift_detected e) /\
  details !! "drift_score"%string = Some (drift_score e) /\
  details !! "stattest_name"%string = Some (stattest_name e) /\
  details !! "threshold"%string = Some (threshold e).
Proof.
  unfold read_details, getitem. split.
  - destruct (details !! "drift_detected"%string); simpl; [|discriminate].
    destruct (details !! "drift_score"%string); simpl; [|discriminate].
    destruct (details !! "stattest_name"%string); simpl; [|discriminate].
    destruct (details !! "threshold"%string); simpl; [|discriminate].
    intros [= <-]. simpl. repeat split.
  - intros (-> & -> & -> & ->). simpl. destruct e; reflexivity.
Qed.

Lemma read_details_flagged (details : gmap string value) (e : FeatureDrift) :
  read_details details = Ok e ->
  Scale.flagged details = truth (drift_detected e).
Proof.
  intros H. apply read_details_ok in H. destruct H as [H _].
  unfold Scale.flagged. now rewrite H.
Qed.

Lemma loop_cons (c : string) (details : gmap string value)
    (items : list (string * gmap string value))
    (m m' : gmap string FeatureDrift) :
  feature_drift_loop ((c, details) :: items) m = Ok m' ->
  (c = "species"%string /\ feature_drift_loop items m = Ok m') \/
  (c <> "species"%string /\
   exists e, read_details details = Ok e /\
             feature_drift_loop items (<[c := e]> m) = Ok m').
Proof.
  simpl. destruct (String.eqb_spec c "species") as [->|Hc]; simpl.
  - intros H. left. split; [reflexivity | exact H].
  - destruct (read_details details) as [e|err]; simpl; [|discriminate].
    intros H. right. split; [exact Hc|]. exists e. split; [reflexivity|].
    exact H.
Qed.




Lemma count_drifted_eq (m : gmap string FeatureDrift) :
  count_drifted m =
    Z.of_nat
      (length (List.filter (fun f => truth (drift_detected f))
                           (map snd (map_to_list m)))).
Proof. unfold count_drifted. now rewrite sum_ones, filter_bool. Qed.

Lemma count_drifted_insert (m : gmap string FeatureDrift) (c : string)
    (e : FeatureDrift) :
  m !! c = None ->
  count_drifted (<[c := e]> m) =
    (count_drifted m + if truth (drift_detected e) then 1 else 0)%Z.
Proof.
  intros Hm. rewrite !count_drifted_eq, <- !filter_bool.
  pose proof (map_to_list_insert m c e Hm) as Hp.
  apply (Permutation_map snd) in Hp.
  apply (filter_Permutation
           (fun f => truth (drift_detected f) = true)) in Hp.
  rewrite (Permutation_length Hp). simpl map. rewrite filter_cons.
  destruct (decide (truth (drift_detected e) = true)) as [->|H].
  - simpl length. lia.
  - destruct (truth (drift_detected e)); [contradiction|]. lia.
Qed.

(** What the loop adds: one entry per feature column, and one drifted
    feature per flagged feature column. *)
Lemma loop_count (items : list (string * gmap string value))
    (m m' : gmap string FeatureDrift) :
  feature_drift_loop items m = Ok m' ->
  List.NoDup (map fst items) ->
  (forall c, In c (map fst items) -> m !! c = None) ->
  count_drifted m' =
    (count_drifted m
     + Z.of_nat
         (length
            (List.filter (fun item => Scale.flagged (snd item))
                         (Scale.feature_columns items))))%Z /\
  size m' = (size m + length (Scale.feature_columns items))%nat.
Proof.
  revert m. induction items as [|[c details] items IH];
    intros m H Hnd Hfresh.
  - simpl in H. injection H as <-. simpl. split; lia.
  - simpl in Hnd. inversion Hnd as [|? ? Hnin Hnd']; subst.
    apply loop_cons in H.
    destruct H as [ [-> H]|(Hne & e & He & H)].
    + destruct (IH _ H Hnd') as [Hc Hs].
      { intros c Hc. apply Hfresh. now right. }
      unfold Scale.feature_columns in *. simpl. split; assumption.
    + destruct (IH _ H Hnd') as [Hc Hs].
      { intros c' Hc'. rewrite lookup_insert_ne.
        - apply Hfresh. now right.
        - intros ->. contradiction. }
      assert (Hm : m !! c = None) by (apply Hfresh; now left).
      rewrite (count_drifted_insert m c e Hm) in Hc.
      rewrite (map_size_insert_None _ _ _ Hm) in Hs.
      unfold Scale.feature_columns in *. simpl.
      destruct (String.eqb_spec c "species"); [contradiction|].
      simpl. rewrite (read_details_flagged details e He).
      split; [|lia].
      destruct (truth (drift_detected e)); simpl length; lia.
Qed.


Lemma flagged_feature_columns
    (items : list (string * gmap string value)) :
  List.filter (fun item => Scale.flagged (snd item))
              (Scale.feature_columns items)
  = List.filter (fun item => negb (String.eqb (fst item) "species")
                              && Scale.flagged (snd item)) items.
Proof.
  unfold Scale.feature_columns.
  induction items as [|[c d] items IH]; [reflexivity|].
  simpl. destruct (negb (c =? "species")%string); simpl; [|exact IH].
  destruct (Scale.flagged d); now rewrite IH.
Qed.

(** A result of [detect_data_drift], taken apart. *)
Lemma detect_data_drift_ok (report : DriftReport) (now : string)
    (r : DriftResults) :
  detect_data_drift report now = Ok r ->
  dataset_result report !! "dataset_drift"%string
    = Some (dataset_drift_detected r) /\
  dataset_result report !! "drift_score"%string
    = Some (dataset_drift_score r) /\
  feature_drift_loop (drift_by_columns report) ∅ = Ok (feature_drift r) /\
  n_features_drifted r = count_drifted (feature_drift r) /\
  timestamp r = now.
Proof.
  unfold detect_data_drift, getitem.
  destruct (dataset_result report !! "dataset_drift"%string); simpl;
    [|discriminate].
  destruct (dataset_result report !! "drift_score"%string); simpl;
    [|discriminate].
  destruct (feature_drift_loop _ _); simpl; [|discriminate].
  intros [= <-]. simpl. repeat split.
Qed.

End DetectFacts.



(** X15.  For a per-column table with distinct column names, the
    [n_features_drifted] of every result is the number of columns other
    than "species" whose ["drift_detected"] entry is true; it lies
    between 0 and the number of entries of [feature_drift], which is the
    number of columns other than "species". *)
Theorem X15_n_features_drifted_counts
    (report : Detect.DriftReport) (now : string) (r : Detect.DriftResults) :
  List.NoDup (map fst (Detect.drift_by_columns report)) ->
  Detect.detect_data_drift report now = Ok r ->
  Detect.n_features_drifted r =
    Z.of_nat
      (length
         (List.filter
            (fun item =>
               negb (String.eqb (fst item) "species")
               && Scale.flagged (snd item))
            (Detect.drift_by_columns report))) /\
  (0 <= Detect.n_features_drifted r
     <= Z.of_nat (size (Detect.feature_drift r)))%Z /\
  size (Detect.feature_drift r)
    = length (Scale.feature_columns (Detect.drift_by_columns report)) /\
  (size (Detect.feature_drift r)
     <= length (Detect.drift_by_columns report))%nat.
Proof.
  intros Hnd Hr. apply detect_data_drift_ok in Hr.
  destruct Hr as (_ & _ & Hloop & Hn & _).
  destruct (loop_count _ _ _ Hloop Hnd) as [Hc Hs].
  { intros c _. apply lookup_empty. }
  rewrite map_size_empty in Hs. simpl in Hs.
  assert (H0 : Detect.count_drifted ∅ = 0%Z) by reflexivity.
  rewrite H0 in Hc. simpl in Hc.
  rewrite Hn, Hc, Hs, <- flagged_feature_columns. repeat split.
  - lia.
  - apply inj_le, length_filter_le.
  - apply length_filter_le.
Qed.

(** X15 on a table with two drifted columns, one of them "species". *)
Lemma X15_witness :
  exists r,
    Detect.detect_data_drift
      (Detect.mk_drift_report
         (<["dataset_drift" := Detect.SBool true]>
            (<["drift_score" := Detect.SNum 0.5]> ∅))
         [("petal width (cm)"%string,
           <["drift_detected" := Detect.VScalar (Detect.SBool true)]>
             (<["drift_score" := Detect.VScalar (Detect.SNum 0.01)]>
                (<["stattest_name" := Detect.VStr "ks"]>
                   (<["threshold" := Detect.VScalar (Detect.SNum 0.05)]> ∅))));
          ("species"%string,
           <["drift_detected" := Detect.VScalar (Detect.SBool true)]> ∅)])
      "t" = Ok r /\
    Detect.n_features_drifted r = 1%Z.
Proof.
  match goal with
  | |- exists r, ?run = Ok r /\ _ => destruct run as [r|e] eqn:Hr
  end.
  - exists r. split; [reflexivity|].
    edestruct X15_n_features_drifted_counts as [H _]; [|exact Hr|].
    + simpl. repeat constructor; simpl; intuition discriminate.
    + rewrite H. reflexivity.
  - vm_compute in Hr. discriminate Hr.
Defined.

(** ** The test suite and the monitoring pipeline *)

Section SuiteFacts.

Import Suite.

Variable int_truediv : Z -> Z -> float.

Lemma rebuild_test (t : TestEntry) :
  {| name := name t; status := status t; description := description t |} = t.
Proof. destruct t; reflexivity. Qed.

Lemma collect_details (l acc : list TestEntry) :
  fold_left
    (fun details test =>
       (details ++ [{| name := name test;
                       status := status test;
                       description := description test |}])%list)
    l acc = (acc ++ l)%list.
Proof.
  revert acc. induction l as [|t l IH]; intros acc; simpl.
  - now rewrite app_nil_r.
  - rewrite IH, rebuild_test, <- app_assoc. reflexivity.
Qed.

Lemma run_drift_tests_zero (suite : SuiteResults) :
  s_total_tests (summary suite) = 0%Z ->
  run_drift_tests int_truediv suite = Throw ZeroDivisionError.
Proof.
  intros H. unfold run_drift_tests, truediv. rewrite H. reflexivity.
Qed.

Lemma run_drift_tests_nonzero (suite : SuiteResults) :
  s_total_tests (summary suite) <> 0%Z ->
  run_drift_tests int_truediv suite =
    Return {| total_tests := s_total_tests (summary suite);
              passed_tests := s_success_tests (summary suite);
              failed_tests := s_failed_tests (summary suite);
              success_rate :=
                int_truediv (s_success_tests (summary suite))
                            (s_total_tests (summary suite));
              test_details := tests suite |}.
Proof.
  intros H. unfold run_drift_tests, truediv.
  destruct (Z.eqb_spec (s_total_tests (summary suite)) 0);
    [contradiction|].
  simpl. rewrite collect_details. reflexivity.
Qed.

End SuiteFacts.

(** Which rule put a recommendation into the summary. *)
Lemma recommendation_rules
    (now : string) (d : Monitor.DataDriftResults) (t : Monitor.TestResults)
    (p : option Monitor.PredictionDrift) :
  let recs :=
    Monitor.recommendations (Monitor.generate_monitoring_summary now d t p) in
  (In Monitor.rec_investigate recs <->
   (2 <? Monitor.n_features_drifted d)%Z = true) /\
  (In Monitor.rec_attention recs <->
   PyFloat.lt (Monitor.success_rate t) 0.8 = true) /\
  (In Monitor.rec_monitor recs <-> Monitor.supplied_and_detected p = true).
Proof.
  intros recs. subst recs. rewrite recommendations_eq, !append_if_app.
  destruct (py_in _ _), (2 <? Monitor.n_features_drifted d)%Z,
    (PyFloat.lt (Monitor.success_rate t) 0.8),
    (Monitor.supplied_and_detected p); simpl;
    unfold Monitor.rec_retrain, Monitor.rec_investigate,
      Monitor.rec_attention, Monitor.rec_monitor;
    intuition discriminate.
Qed.

(** X16.  [run_drift_tests] raises [ZeroDivisionError] exactly when the
    suite ran no test; on any other suite it returns the three counters,
    the success rate [success_tests / total_tests], and one detail entry
    per test of the suite, in the suite's order. *)
Theorem X16_run_drift_tests
    (int_truediv : Z -> Z -> float) (suite : Suite.SuiteResults) :
  (Suite.s_total_tests (Suite.summary suite) = 0%Z <->
   Suite.run_drift_tests int_truediv suite = Throw ZeroDivisionError) /\
  (Suite.s_total_tests (Suite.summary suite) <> 0%Z ->
   exists r,
     Suite.run_drift_tests int_truediv suite = Return r /\
     Suite.total_tests r = Suite.s_total_tests (Suite.summary suite) /\
     Suite.passed_tests r = Suite.s_success_tests (Suite.summary suite) /\
     Suite.failed_tests r = Suite.s_failed_tests (Suite.summary suite) /\
     Suite.success_rate r =
       int_truediv (Suite.s_success_tests (Suite.summary suite))
                   (Suite.s_total_tests (Suite.summary suite)) /\
     Suite.test_details r = Suite.tests suite).
Proof.
  split.
  - split; [apply run_drift_tests_zero|].
    intros H.
    destruct (Z.eq_dec (Suite.s_total_tests (Suite.summary suite)) 0%Z)
      as [E|NE]; [exact E|].
    rewrite (run_drift_tests_nonzero int_truediv suite NE) in H.
    discriminate.
  - intros NE. eexists. split.
    + apply (run_drift_tests_nonzero int_truediv suite NE).
    + repeat split.
Qed.

(** X16 on a suite of five tests, four of them passed, and on an empty
    suite; the division is the binary64 division of the two counters. *)
Lemma X16_witness :
  (exists r,
      Suite.run_drift_tests
        (fun a b => (of_uint63 (Uint63.of_Z a) / of_uint63 (Uint63.of_Z b))%float)
        (Suite.mk_suite_results (Suite.mk_suite_summary 5 4 1)
           [Suite.mk_test_entry "Share of Drifted Columns" "SUCCESS" "ok"])
      = Return r /\
      Suite.success_rate r = 0.8%float) /\
  Suite.run_drift_tests
    (fun a b => (of_uint63 (Uint63.of_Z a) / of_uint63 (Uint63.of_Z b))%float)
    (Suite.mk_suite_results (Suite.mk_suite_summary 0 0 0) [])
  = Throw ZeroDivisionError.
Proof.
  split.
  - destruct (X16_run_drift_tests
                (fun a b =>
                   (of_uint63 (Uint63.of_Z a) / of_uint63 (Uint63.of_Z b))%float)
                (Suite.mk_suite_results (Suite.mk_suite_summary 5 4 1)
                   [Suite.mk_test_entry "Share of Drifted Columns"
                      "SUCCESS" "ok"])) as [_ H].
    destruct H as (r & Hr & _ & _ & _ & Hrate & _); [discriminate|].
    exists r. split; [exact Hr|]. rewrite Hrate. reflexivity.
  - apply (X16_run_drift_tests
             (fun a b =>
                (of_uint63 (Uint63.of_Z a) / of_uint63 (Uint63.of_Z b))%float)
             (Suite.mk_suite_results (Suite.mk_suite_summary 0 0 0) [])).
    reflexivity.
Defined.

(** X17.  The monitoring pipeline [main] fails before the test suite is
    looked at whenever drift detection fails: with
    [KeyError("dataset_drift")] on a dataset result without that entry,
    and with [KeyError("drift_score")] on one that has it but has no
    "drift_score" entry.  When detection succeeds, [main] fails exactly
    when the suite ran no test, with [ZeroDivisionError].  A summary it
    returns never carries a prediction-drift entry nor the
    monitor-performance recommendation, and has at most three
    recommendations. *)
Theorem X17_main_failures
    (int_truediv : Z -> Z -> float) (report : Detect.DriftReport)
    (suite : Suite.SuiteResults) (now1 now2 : string) :
  let run := Suite.main int_truediv report suite now1 now2 in
  (forall e : exn,
      Detect.detect_data_drift report now1 = Raise e ->
      run = Throw (Builtin e)) /\
  (Detect.dataset_result report !! "dataset_drift"%string = None ->
   run = Throw (Builtin (KeyError "dataset_drift"))) /\
  (is_Some (Detect.dataset_result report !! "dataset_drift"%string) ->
   Detect.dataset_result report !! "drift_score"%string = None ->
   run = Throw (Builtin (KeyError "drift_score"))) /\
  (forall d : Detect.DriftResults,
      Detect.detect_data_drift report now1 = Ok d ->
      (Suite.s_total_tests (Suite.summary suite) = 0%Z <->
       run = Throw ZeroDivisionError)) /\
  (forall s : Monitor.Summary,
      run = Return s ->
      Monitor.prediction_drift s = None /\
      ~ In Monitor.rec_monitor (Monitor.recommendations s) /\
      (length (Monitor.recommendations s) <= 3)%nat).
Proof.
  intros run. subst run. unfold Suite.main.
  split; [|split; [|split; [|split] ] ].
  - intros e ->. reflexivity.
  - intros H. unfold Detect.detect_data_drift.
    rewrite (getitem_None _ _ H). reflexivity.
  - intros [v Hv] H. unfold Detect.detect_data_drift.
    rewrite (getitem_Some _ _ _ Hv), (getitem_None _ _ H). reflexivity.
  - intros d ->.
    destruct (Z.eq_dec (Suite.s_total_tests (Suite.summary suite)) 0%Z)
      as [E|NE].
    + rewrite (run_drift_tests_zero int_truediv suite E). tauto.
    + rewrite (run_drift_tests_nonzero int_truediv suite NE).
      split; [contradiction | discriminate].
  - intros s.
    destruct (Detect.detect_data_drift report now1) as [d|e];
      [|discriminate].
    destruct (Suite.run_drift_tests int_truediv suite) as [t|e];
      [|discriminate].
    intros [= <-]. split; [reflexivity|]. split.
    + intros Hin. apply recommendation_rules in Hin. discriminate.
    + rewrite recommendations_eq, !append_if_app.
      cbn [Monitor.supplied_and_detected].
      destruct (py_in _ _), (2 <? _)%Z, (PyFloat.lt _ _); simpl; lia.
Qed.

(** X17 on a dataset result with the entries "dataset_drift" and
    "drift_share" only, and a suite of five tests. *)
Lemma X17_witness :
  Suite.main
    (fun a b => (of_uint63 (Uint63.of_Z a) / of_uint63 (Uint63.of_Z b))%float)
    (Detect.mk_drift_report
       (<["dataset_drift" := Detect.SBool true]>
          (<["drift_share" := Detect.SNum 0.5]> ∅))
       [])
    (Suite.mk_suite_results (Suite.mk_suite_summary 5 4 1) [])
    "t1" "t2"
  = Throw (Builtin (KeyError "drift_score")).
Proof.
  apply (X17_main_failures
           (fun a b =>
              (of_uint63 (Uint63.of_Z a) / of_uint63 (Uint63.of_Z b))%float)
           (Detect.mk_drift_report
              (<["dataset_drift" := Detect.SBool true]>
                 (<["drift_share" := Detect.SNum 0.5]> ∅))
              [])
           (Suite.mk_suite_results (Suite.mk_suite_summary 5 4 1) [])
           "t1" "t2").
  - eexists. reflexivity.
  - reflexivity.
Defined.

(** X18.  End to end, on a report from which drift detection returns
    (its dataset result holds "dataset_drift" and "drift_score", its
    table has distinct column names) and a suite that ran at least one
    test, [main] returns a summary whose status is "alert" exactly when
    the "dataset_drift" entry is true and the "drift_score" entry is
    above 0.5, which recommends investigating the pipeline exactly when
    more than two columns other than "species" are flagged as drifted,
    and which asks for immediate attention exactly when
    [success_tests / total_tests] is below 0.8. *)
Theorem X18_main_end_to_end
    (int_truediv : Z -> Z -> float) (report : Detect.DriftReport)
    (suite : Suite.SuiteResults) (now1 now2 : string)
    (d : Detect.DriftResults) :
  List.NoDup (map fst (Detect.drift_by_columns report)) ->
  Detect.detect_data_drift report now1 = Ok d ->
  Suite.s_total_tests (Suite.summary suite) <> 0%Z ->
  Detect.dataset_result report !! "dataset_drift"%string
    = Some (Detect.dataset_drift_detected d) /\
  Detect.dataset_result report !! "drift_score"%string
    = Some (Detect.dataset_drift_score d) /\
  exists s : Monitor.Summary,
    Suite.main int_truediv report suite now1 now2 = Return s /\
    (Monitor.overall_status s = "alert"%string <->
     Detect.scalar_truth (Detect.dataset_drift_detected d) = true /\
     PyFloat.gt (Detect.number (Detect.dataset_drift_score d)) 0.5 = true) /\
    (In Monitor.rec_investigate (Monitor.recommendations s) <->
     (2 < length
            (List.filter
               (fun item =>
                  negb (String.eqb (fst item) "species")
                  && Scale.flagged (snd item))
               (Detect.drift_by_columns report)))%nat) /\
    (In Monitor.rec_attention (Monitor.recommendations s) <->
     PyFloat.lt
       (int_truediv (Suite.s_success_tests (Suite.summary suite))
                    (Suite.s_total_tests (Suite.summary suite)))
       0.8 = true).
Proof.
  intros Hnd Hd NE.
  pose proof (detect_data_drift_ok report now1 d Hd)
    as (Hdet & Hscore & Hloop & Hn & _).
  split; [exact Hdet|]. split; [exact Hscore|].
  unfold Suite.main. rewrite Hd.
  rewrite (run_drift_tests_nonzero int_truediv suite NE).
  eexists. split; [reflexivity|].
  split; [apply overall_status_alert|].
  match goal with
  | |- context [Monitor.generate_monitoring_summary ?n ?dd ?t None] =>
      destruct (recommendation_rules n dd t None) as (Hinv & Hatt & _)
  end.
  split; [|exact Hatt].
  rewrite Hinv. cbn [Detect.summary_input Monitor.n_features_drifted].
  destruct (loop_count _ _ _ Hloop Hnd) as [Hc _].
  { intros c _. apply lookup_empty. }
  assert (H0 : Detect.count_drifted ∅ = 0%Z) by reflexivity.
  rewrite Hn, Hc, H0, Z.ltb_lt.
  rewrite flagged_feature_columns. lia.
Qed.

(** X18 on a table with three flagged feature columns and an unflagged
    "species" column, a drift score of 0.75, and a suite of five tests,
    three of them passed. *)
Lemma X18_witness :
  exists s : Monitor.Summary,
    Suite.main
      (fun a b => (of_uint63 (Uint63.of_Z a) / of_uint63 (Uint63.of_Z b))%float)
      (Detect.mk_drift_report
         (<["dataset_drift" := Detect.SBool true]>
            (<["drift_score" := Detect.SNum 0.75]> ∅))
         [("sepal length (cm)"%string,
           <["drift_detected" := Detect.VScalar (Detect.SBool true)]>
             (<["drift_score" := Detect.VScalar (Detect.SNum 0.01)]>
                (<["stattest_name" := Detect.VStr "ks"]>
                   (<["threshold" := Detect.VScalar (Detect.SNum 0.05)]> ∅))));
          ("sepal width (cm)"%string,
           <["drift_detected" := Detect.VScalar (Detect.SBool true)]>
             (<["drift_score" := Detect.VScalar (Detect.SNum 0.02)]>
                (<["stattest_name" := Detect.VStr "ks"]>
                   (<["threshold" := Detect.VScalar (Detect.SNum 0.05)]> ∅))));
          ("petal width (cm)"%string,
           <["drift_detected" := Detect.VScalar (Detect.SBool true)]>
             (<["drift_score" := Detect.VScalar (Detect.SNum 0.03)]>
                (<["stattest_name" := Detect.VStr "ks"]>
                   (<["threshold" := Detect.VScalar (Detect.SNum 0.05)]> ∅))));
          ("species"%string, ∅)])
      (Suite.mk_suite_results (Suite.mk_suite_summary 5 3 2) [])
      "t1" "t2" = Return s /\
    Monitor.overall_status s = "alert"%string /\
    In Monitor.rec_investigate (Monitor.recommendations s) /\
    In Monitor.rec_attention (Monitor.recommendations s).
Proof.
  match goal with
  | |- exists s, Suite.main ?f ?report ?suite ?n1 ?n2 = _ /\ _ =>
      destruct (Detect.detect_data_drift report n1) as [d|e] eqn:Hd;
      [destruct (X18_main_end_to_end f report suite n1 n2 d)
         as (Hdet & Hscore & s & Hs & Halert & Hinv & Hatt);
       [simpl; repeat constructor; simpl; intuition discriminate
       | exact Hd | discriminate | ]
      | vm_compute in Hd; discriminate Hd]
  end.
  exists s. split; [exact Hs|].
  assert (Hd1 : Some (Detect.dataset_drift_detected d)
                = Some (Detect.SBool true))
    by (rewrite <- Hdet; reflexivity).
  assert (Hd2 : Some (Detect.dataset_drift_score d)
                = Some (Detect.SNum 0.75))
    by (rewrite <- Hscore; reflexivity).
  injection Hd1 as Hd1. injection Hd2 as Hd2.
  split; [|split].
  - apply Halert. rewrite Hd1, Hd2. split; reflexivity.
  - apply Hinv. vm_compute. lia.
  - apply Hatt. reflexivity.
Defined.

(** ** Missing metrics *)


